(** * just-mcp: recipe-to-tool mapping and execution bridge

  A shallow embedding of the two server variants of just-mcp:

  - the structured-dump variant (the script that reads
    [just --dump --dump-format json]), embedded in [Module DumpVariant];
  - the text-listing variant (just.ts, which reads [just -l]), embedded in
    [Module ListVariant].

  The embedding covers the Schema Synthesizer ([createParameterSchema]),
  the Argument Marshaller ([processParameters]), the Recipe Executor
  ([executeRecipe] / [executeJustTask]) and the tool closure ([execute]).
  The host (process spawning) and the schema library are external; they
  are modelled in [Module Js] and [Module Zod]. *)

From Stdlib Require Import String Ascii List ZArith Bool DecimalString.
From Stdlib Require Import DecimalPos DecimalZ Permutation.
From ExtLib Require Import Structures.Monad Structures.MonadExc Data.Monads.EitherMonad.
Import ListNotations.
Import MonadNotation.

Local Open Scope string_scope.
Local Open Scope list_scope.
Local Open Scope monad_scope.

(** String concatenation, as done by template literals and [+=]. *)
Local Infix "^^" := String.append (at level 60, right associativity).

(* ===================================================================== *)
(** ** JavaScript values and the host environment *)
(* ===================================================================== *)

Module Js.

(** Runtime values a caller may put in a parameter map ([unknown] in the
    source).  Numbers are restricted to integers. *)
#[warnings="-register-all"]
Inductive value : Type :=
| VUndefined
| VNull
| VBool (b : bool)
| VNumber (n : Z)
| VString (s : string)
| VArray (xs : list value)
| VObject (fields : list (string * value)).

(** [Array.isArray(v)] *)
Definition isArray (v : value) : bool :=
  match v with VArray _ => true | _ => false end.

(** [typeof v === "string"] *)
Definition isString (v : value) : bool :=
  match v with VString _ => true | _ => false end.

(** The elements an array spreads to ([...v]). *)
Definition elements (v : value) : list value :=
  match v with VArray xs => xs | _ => [] end.

(** The double quote character and the line feed. *)
Definition dquote : string := String "034"%char EmptyString.
Definition lf : string := String "010"%char EmptyString.

(** Truthiness of a string: only the empty string is falsy. *)
Definition truthy_string (s : string) : bool :=
  match s with EmptyString => false | String _ _ => true end.

(** [`${n}`] for an integral number. *)
Definition string_of_number (n : Z) : string :=
  NilZero.string_of_int (Z.to_int n).

(** White space as [trim] and the regular-expression class [\s] see it,
    among characters below 256. *)
Definition isWhiteSpace (c : ascii) : bool :=
  match nat_of_ascii c with
  | 9 | 10 | 11 | 12 | 13 | 32 | 160 => true
  | _ => false
  end.

(** The class [\w]: letters, digits and the underscore. *)
Definition isWordChar (c : ascii) : bool :=
  let n := nat_of_ascii c in
  (((65 <=? n) && (n <=? 90)) || ((97 <=? n) && (n <=? 122)) ||
   ((48 <=? n) && (n <=? 57)) || (n =? 95))%nat.

(** Line terminators, which [.] does not match. *)
Definition isLineTerminator (c : ascii) : bool :=
  match nat_of_ascii c with
  | 10 | 13 => true
  | _ => false
  end.

(** The longest prefix of characters satisfying [f], and what follows. *)
Fixpoint span (f : ascii -> bool) (s : string) : string * string :=
  match s with
  | EmptyString => (EmptyString, EmptyString)
  | String c r =>
      if f c then let (a, b) := span f r in (String c a, b)
      else (EmptyString, s)
  end.

Definition trimStart (s : string) : string := snd (span isWhiteSpace s).

Fixpoint trimEnd (s : string) : string :=
  match s with
  | EmptyString => EmptyString
  | String c r =>
      match trimEnd r with
      | EmptyString => if isWhiteSpace c then EmptyString
                       else String c EmptyString
      | r' => String c r'
      end
  end.

(** [s.trim()] *)
Definition trim (s : string) : string := trimEnd (trimStart s).

(** [s.split(sep)] for a one-character separator. *)
Fixpoint splitChar (sep : ascii) (cur : string) (s : string) : list string :=
  match s with
  | EmptyString => [cur]
  | String c r =>
      if Ascii.eqb c sep then cur :: splitChar sep EmptyString r
      else splitChar sep (cur ^^ String c EmptyString) r
  end.

(** [s.split(/\s+/)]: [inSep] tells that the scan is inside a run of
    white space, [cur] is the piece read so far. *)
Fixpoint splitSpaces (inSep : bool) (cur : string) (s : string)
  : list string :=
  match s with
  | EmptyString => [cur]
  | String c r =>
      if isWhiteSpace c
      then if inSep then splitSpaces true cur r
           else cur :: splitSpaces true EmptyString r
      else splitSpaces false (cur ^^ String c EmptyString) r
  end.

(** [s.startsWith(c)] for a one-character [c], and [s.slice(1)]. *)
Definition startsWith (s : string) (c : ascii) : bool :=
  match s with
  | String c' _ => Ascii.eqb c' c
  | EmptyString => false
  end.

Definition slice1 (s : string) : string :=
  match s with
  | String _ r => r
  | EmptyString => EmptyString
  end.

(** An object used as a record of caller values: its own enumerable
    string-keyed properties, in the order [Object.entries] yields them. *)
Definition entries : Type := list (string * value).

(** Look a property up; a missing property reads as [undefined]. *)
Fixpoint get (o : entries) (k : string) : value :=
  match o with
  | [] => VUndefined
  | (k', v) :: o' => if String.eqb k' k then v else get o' k
  end.

(** What a [catch] clause may receive: an [Error] object with its
    [message], or any other thrown value with its [String(...)] image. *)
Inductive thrown : Type :=
| ThrownError (message : string)
| ThrownOther (shown : string).

(** [error instanceof Error ? error.message : String(error)] *)
Definition errorMessage (e : thrown) : string :=
  match e with
  | ThrownError m => m
  | ThrownOther s => s
  end.

(** A [Deno.Command] description: program, argument vector, working
    directory.  The argument vector holds whatever values the script put
    in it. *)
Record Command : Type := mkCommand {
  program : string;
  args : list value;
  cwd : string
}.

Inductive stream : Type := stdout | stderr.

(** A spawned child, observed to completion: every chunk either pipe
    delivered, already decoded to text, in order of arrival, and the exit
    status. *)
Record Child : Type := mkChild {
  chunks : list (stream * string);
  code : Z
}.

(** The host: [spawn()] either throws or yields a child. *)
Definition Host : Type := Command -> thrown + Child.



End Js.

(* ===================================================================== *)
(** ** The schema builder *)
(* ===================================================================== *)

Module Zod.
Import Js.

(** Schema nodes, one constructor per builder call the scripts make:
    [z.string()], [z.array(e)], [s.min(n)], [s.optional()],
    [s.describe(d)]. *)
Inductive ZodType : Type :=
| string_
| array (element : ZodType)
| min (n : nat) (s : ZodType)
| optional (s : ZodType)
| describe (d : string) (s : ZodType).

(** Whether a schema node accepts a value ([safeParse(v).success]).
    [min] bounds the length of an array (or of a string). *)
Fixpoint accepts (s : ZodType) (v : value) : bool :=
  match s with
  | string_ => isString v
  | array e =>
      match v with
      | VArray xs => forallb (accepts e) xs
      | _ => false
      end
  | min n s' =>
      accepts s' v &&
      match v with
      | VArray xs => Nat.leb n (List.length xs)
      | VString str => Nat.leb n (String.length str)
      | _ => true
      end
  | optional s' =>
      match v with
      | VUndefined => true
      | _ => accepts s' v
      end
  | describe _ s' => accepts s' v
  end.

(** [s.isOptional()]: the node accepts [undefined], so an object schema
    does not list its key as required. *)
Definition isOptional (s : ZodType) : bool := accepts s VUndefined.
Definition isRequired (s : ZodType) : bool := negb (isOptional s).

(** [s.description]: set by [describe], kept by [optional] and [min]. *)
Fixpoint description (s : ZodType) : option string :=
  match s with
  | describe d _ => Some d
  | optional s' | min _ s' => description s'
  | string_ | array _ => None
  end.

(** The node with its description and optional wrapper removed: the shape
    of value it takes when one is given. *)
Fixpoint core (s : ZodType) : ZodType :=
  match s with
  | describe _ s' | optional s' => core s'
  | _ => s
  end.

(** [z.object(shape)]: every key of the shape is checked against the
    value found under it ([undefined] when missing). *)
Definition object : Type := list (string * ZodType).

Definition object_accepts (shape : object) (o : entries) : bool :=
  forallb (fun ks => accepts (snd ks) (get o (fst ks))) shape.


End Zod.

(* ===================================================================== *)
(** ** The structured-dump variant *)
(* ===================================================================== *)

Module DumpVariant.
Import Js.

(** [kind: "singular" | "star" | "plus"] *)
Inductive Kind : Type := singular | star | plus.

(** [default: string | string[] | null].  The dump writes a literal default
    as a string and an expression default as an array; the script never
    looks inside the array. *)
Inductive Default : Type :=
| DefaultNull
| DefaultString (s : string)
| DefaultArray (parts : list value).

Record JustParameter : Type := mkParameter {
  name : string;
  kind : Kind;
  default : Default;
  export : bool
}.

Record JustRecipe : Type := mkRecipe {
  recipe_name : string;
  parameters : list JustParameter;
  doc : option string;
  body : list (list string);
  dependencies : list string;
  private : bool;
  quiet : bool;
  shebang : bool
}.

(** [recipes: Record<string, JustRecipe>], in [Object.entries] order. *)
Definition Recipes : Type := list (string * JustRecipe).

(** [param.kind === "star" || param.kind === "plus"] *)
Definition variadic (k : Kind) : bool :=
  match k with
  | star | plus => true
  | singular => false
  end.

(** The string a non-array [param.default] stands for when it is truthy:
    [null] and the empty string are falsy. *)
Definition truthyDefault (d : Default) : option string :=
  match d with
  | DefaultString s => if truthy_string s then Some s else None
  | _ => None
  end.

(** [createParameterSchema(param, recipeName)] *)
Definition createParameterSchema (param : JustParameter) (recipeName : string)
  : Zod.ZodType :=
  match default param with
  | DefaultArray _ =>
      (* If default is an array, treat it as an expression *)
      if variadic (kind param)
      then Zod.describe
             ("Parameters for the " ^^ recipeName ^^
              " recipe (default value is an expression in the Justfile)")
             (Zod.optional (Zod.array Zod.string_))
      else Zod.describe
             ("Optional parameter " ^^ name param ^^ " for the " ^^
              recipeName ^^
              " recipe (default value is an expression in the Justfile)")
             (Zod.optional Zod.string_)
  | d =>
      (* Handle normal parameters *)
      if variadic (kind param)
      then
        match kind param with
        | plus =>
            match truthyDefault d with
            | Some s =>
                Zod.describe
                  ("Parameters for the " ^^ recipeName ^^
                   " recipe (default: " ^^ s ^^ ")")
                  (Zod.optional (Zod.array Zod.string_))
            | None =>
                Zod.describe
                  ("Parameters for the " ^^ recipeName ^^
                   " recipe (at least one required)")
                  (Zod.min 1 (Zod.array Zod.string_))
            end
        | _ =>
            Zod.describe
              ("Parameters for the " ^^ recipeName ^^
               " recipe (not required)")
              (Zod.optional (Zod.array Zod.string_))
        end
      else
        match truthyDefault d with
        | Some s =>
            Zod.describe
              ("Optional parameter " ^^ name param ^^ " (default: " ^^ s ^^ ")")
              (Zod.optional Zod.string_)
        | None =>
            Zod.describe ("Required parameter " ^^ name param) Zod.string_
        end
  end.

(** [parameters.find((p) => p.name === name)] *)
Definition findParameter (parameters : list JustParameter) (key : string)
  : option JustParameter :=
  find (fun p => String.eqb (name p) key) parameters.

(** One turn of the [for ... of Object.entries(params)] loop: what [args]
    is after the turn. *)
Definition pushEntry (parameters : list JustParameter)
  (args : list value) (entry : string * value) : list value :=
  let (key, v) := entry in
  match findParameter parameters key with
  | None => args                                   (* continue *)
  | Some param =>
      if variadic (kind param) && isArray v
      then args ++ elements v                      (* args.push(...value) *)
      else if isString v
      then args ++ [v]                             (* args.push(value) *)
      else args
  end.

(** [processParameters(params, parameters)]; [None] stands for a [null] or
    [undefined] map. *)
Definition processParameters (params : option entries)
  (parameters : list JustParameter) : list value :=
  match params with
  | Some o => fold_left (pushEntry parameters) o []
  | None => []
  end.

(** [z.object(Object.fromEntries(recipe.parameters.map(...)))] *)
Definition parametersSchema (recipeName : string) (recipe : JustRecipe)
  : Zod.object :=
  map (fun param => (name param, createParameterSchema param recipeName))
      (parameters recipe).

(** [recipe.doc || `Run the ${recipeName} recipe`] *)
Definition toolDescription (recipeName : string) (recipe : JustRecipe)
  : string :=
  match doc recipe with
  | Some d => if truthy_string d then d else "Run the " ^^ recipeName ^^ " recipe"
  | None => "Run the " ^^ recipeName ^^ " recipe"
  end.

(** A tool as handed to [server.addTool]. *)
Record Tool : Type := mkTool {
  tool_name : string;
  tool_description : string;
  tool_parameters : Zod.object;
  tool_execute : option entries -> thrown + string
}.

Section Server.

(** Process-wide context: the host, [PROJECT], [Deno.args]. *)
Variable host : Host.
Variable PROJECT : string.
Variable Deno_args : list string.

(** The command [getJustRecipes] runs. *)
Definition dumpCommand : Command :=
  mkCommand "just"
    (map VString (Deno_args ++ ["--dump"; "--dump-format"; "json"]))
    PROJECT.

(** [getJustRecipes()]: [run] is [.output()] yielding the decoded stdout,
    [parse] is [JSON.parse] followed by the [.recipes] projection; [None]
    is [Deno.exit(1)]. *)
Definition getJustRecipes (run : Command -> thrown + string)
  (parse : string -> thrown + Recipes) : option Recipes :=
  match (out <- run dumpCommand ;; parse out) with
  | inr recipes => Some recipes
  | inl _ => None
  end.

(** The command string given to [bash -c]. *)
Definition commandString (recipeName : string) : string :=
  "just " ^^ recipeName ^^ " " ^^ dquote ^^ "$@" ^^ dquote.

(** The command [executeRecipe] spawns. *)
Definition recipeCommand (recipeName : string) (args : list value) : Command :=
  mkCommand "bash"
    ([VString "-l"; VString "-c"; VString (commandString recipeName);
      VString "--"] ++ map VString Deno_args ++ args)
    PROJECT.

(** Both readers append to the one [output] as chunks arrive. *)
Definition drain (cs : list (stream * string)) (output : string) : string :=
  fold_left (fun out c => out ^^ snd c) cs output.

(** [executeRecipe(recipeName, args)] *)
Definition executeRecipe (recipeName : string) (args : list value)
  : thrown + string :=
  child <- host (recipeCommand recipeName args) ;;
  let output := drain (chunks child) EmptyString in
  ret (output ^^ lf ^^ "Process exited with code " ^^
       string_of_number (code child)).

(** The [execute] closure of a recipe's tool. *)
Definition execute (recipeName : string) (recipe : JustRecipe)
  (params : option entries) : thrown + string :=
  catch
    (let args := processParameters params (parameters recipe) in
     output <- executeRecipe recipeName args ;;
     ret output)
    (fun error =>
       raise (ThrownError ("Failed to execute " ^^ recipeName ^^ ": " ^^
                           errorMessage error))).

(** The tool built for one recipe. *)
Definition recipeTool (recipeName : string) (recipe : JustRecipe) : Tool :=
  mkTool recipeName (toolDescription recipeName recipe)
         (parametersSchema recipeName recipe) (execute recipeName recipe).

(** The diagnostic tool. *)
Definition cwdTool : Tool :=
  mkTool "cwd" "Get the working directory that the MCP server is running in"
         [] (fun _ => inr PROJECT).

(** [ALLOWED_RECIPES && !ALLOWED_RECIPES.includes(recipeName)] *)
Definition filteredOut (ALLOWED_RECIPES : option (list string))
  (recipeName : string) : bool :=
  match ALLOWED_RECIPES with
  | Some allowed => negb (existsb (String.eqb recipeName) allowed)
  | None => false
  end.

(** The registration loop: the tools added to the server, in order. *)
Definition registerTools (ENABLE_DEBUG_TOOL SHOW_RECIPES : bool)
  (ALLOWED_RECIPES : option (list string)) (recipes : Recipes) : list Tool :=
  fold_left
    (fun tools entry =>
       let (recipeName, recipe) := entry : string * JustRecipe in
       if filteredOut ALLOWED_RECIPES recipeName then tools
       else if SHOW_RECIPES then tools
       else tools ++ [recipeTool recipeName recipe])
    recipes
    (if ENABLE_DEBUG_TOOL then [cwdTool] else []).

End Server.

(** [Deno.env.get(NAME)] read as a condition: set and not empty. *)
Definition flagSet (env : option string) : bool :=
  match env with
  | Some s => truthy_string s
  | None => false
  end.

(** [ALLOWED_RECIPES]: the value of the environment variable trimmed, then
    split at commas with every piece trimmed; [null] when the variable is
    unset or blank. *)
Definition allowedRecipes (env : option string) : option (list string) :=
  match env with
  | Some s =>
      let t := trim s in
      if truthy_string t
      then Some (map trim (splitChar ","%char EmptyString t))
      else None
  | None => None
  end.

(** How the script ends up: [Deno.exit(code)], or serving the tools it
    registered. *)
Inductive Startup : Type :=
| Exited (code : Z)
| Serving (tools : list Tool).

(** The script from top to bottom: read the environment, get the recipes,
    register the tools, then exit (when [SHOW_RECIPES] is set) or serve. *)
Definition startup (host : Host) (PROJECT : string) (Deno_args : list string)
  (ALLOWED_RECIPES ENABLE_DEBUG_TOOL SHOW_RECIPES : option string)
  (run : Command -> thrown + string) (parse : string -> thrown + Recipes)
  : Startup :=
  match getJustRecipes PROJECT Deno_args run parse with
  | None => Exited 1
  | Some recipes =>
      let tools :=
        registerTools host PROJECT Deno_args (flagSet ENABLE_DEBUG_TOOL)
          (flagSet SHOW_RECIPES) (allowedRecipes ALLOWED_RECIPES) recipes in
      if flagSet SHOW_RECIPES then Exited 0 else Serving tools
  end.

End DumpVariant.

(* ===================================================================== *)
(** ** The text-listing variant *)
(* ===================================================================== *)

Module ListVariant.
Import Js.

Record TaskParameter : Type := mkTaskParameter {
  name : string;
  isVarArgs : bool
}.

Record Task : Type := mkTask {
  task_name : string;
  description : string;
  parameters : list TaskParameter
}.

(** The captures of the line pattern on one line.  The pattern reads:
    start of line, white space, a run of word characters (the task name);
    then, optionally, white space followed by a run of characters other
    than [#] (the arguments); then, optionally, white space, [#], white
    space and the rest of the line (the comment).  A capture is [None] when
    its group did not take part.  Every run is greedy and everything after
    the name is optional, so the first attempt of each group decides. *)
Definition matchLine (line : string)
  : option (string * option string * option string) :=
  let (taskName, rest) := span isWordChar (trimStart line) in
  match taskName with
  | EmptyString => None
  | _ =>
      let (spaces, afterSpaces) := span isWhiteSpace rest in
      let (argsStr, rest') :=
        match spaces with
        | EmptyString => (None, rest)
        | _ => let (a, r) :=
                 span (fun c => negb (Ascii.eqb c "#"%char)) afterSpaces in
               (Some a, r)
        end in
      let comment :=
        match trimStart rest' with
        | String "#"%char r =>
            Some (fst (span (fun c => negb (isLineTerminator c)) (trimStart r)))
        | _ => None
        end in
      Some (taskName, argsStr, comment)
  end.

(** A destructuring default: a capture that did not take part reads as
    the empty string. *)
Definition orEmpty (x : option string) : string :=
  match x with Some s => s | None => EmptyString end.

(** [argsStr.trim().split(/\s+/).filter((p) => p.trim()).map(...)] *)
Definition parseParams (argsStr : string) : list TaskParameter :=
  map (fun p =>
         mkTaskParameter
           (if startsWith p "$"%char || startsWith p "*"%char
            then slice1 p else p)
           (startsWith p "*"%char))
      (filter (fun p => truthy_string (trim p))
              (splitSpaces false EmptyString (trim argsStr))).

(** [comment.trim() || `Run the ${taskName} task`] *)
Definition taskDescription (taskName comment : string) : string :=
  let c := trim comment in
  if truthy_string c then c else "Run the " ^^ taskName ^^ " task".

(** [ALLOWED_TASKS !== null && !ALLOWED_TASKS.includes(taskName)] *)
Definition filteredOut (ALLOWED_TASKS : option (list string))
  (taskName : string) : bool :=
  match ALLOWED_TASKS with
  | Some allowed => negb (existsb (String.eqb taskName) allowed)
  | None => false
  end.

(** The body of the loop over the lines of the listing. *)
Definition pushTask (ALLOWED_TASKS : option (list string))
  (tasks : list Task) (line : string) : list Task :=
  match matchLine line with
  | None => tasks
  | Some (taskName, argsStr, comment) =>
      if filteredOut ALLOWED_TASKS taskName then tasks
      else tasks ++ [mkTask taskName
                            (taskDescription taskName (orEmpty comment))
                            (parseParams (orEmpty argsStr))]
  end.

(** The tasks read off the text of [just -l]. *)
Definition parseTaskList (ALLOWED_TASKS : option (list string))
  (taskList : string) : list Task :=
  fold_left (pushTask ALLOWED_TASKS)
            (splitChar "010"%char EmptyString taskList) [].

(** [parameters.find((p) => p.name === name)] *)
Definition findParameter (parameters : list TaskParameter) (key : string)
  : option TaskParameter :=
  find (fun p => String.eqb (name p) key) parameters.

(** [param?.isVarArgs], read as a condition. *)
Definition isVarArgs_opt (param : option TaskParameter) : bool :=
  match param with
  | Some p => isVarArgs p
  | None => false
  end.

(** One turn of the loop of [processParameters]. *)
Definition pushEntry (parameters : list TaskParameter)
  (args : list value) (entry : string * value) : list value :=
  let (key, v) := entry in
  let param := findParameter parameters key in
  if isVarArgs_opt param && isArray v
  then args ++ elements v                          (* args.push(...value) *)
  else if isString v
  then args ++ [v]                                 (* args.push(value) *)
  else args.

(** [processParameters(params, parameters)] *)
Definition processParameters (params : entries)
  (parameters : list TaskParameter) : list value :=
  fold_left (pushEntry parameters) params [].

(** The schema node of one task parameter. *)
Definition parameterSchema (taskName : string) (param : TaskParameter)
  : Zod.ZodType :=
  if isVarArgs param
  then Zod.describe ("Variable arguments for the " ^^ taskName ^^ " task")
                    (Zod.array Zod.string_)
  else Zod.describe ("Parameter " ^^ name param ^^ " for the " ^^ taskName ^^
                     " task")
                    Zod.string_.

(** [paramSchema]: assigning a key again replaces its node in place. *)
Fixpoint assign (o : Zod.object) (k : string) (s : Zod.ZodType) : Zod.object :=
  match o with
  | [] => [(k, s)]
  | (k', s') :: o' =>
      if String.eqb k' k then (k', s) :: o' else (k', s') :: assign o' k s
  end.

Definition paramSchema (task : Task) : Zod.object :=
  fold_left (fun o param =>
               assign o (name param) (parameterSchema (task_name task) param))
            (parameters task) [].

Record Tool : Type := mkTool {
  tool_name : string;
  tool_description : string;
  tool_parameters : Zod.object;
  tool_execute : entries -> thrown + string
}.

Section Server.

Variable host : Host.
Variable PROJECT : string.

(** The command [getJustTasks] runs. *)
Definition listCommand : Command :=
  mkCommand "just" [VString "-l"] PROJECT.

(** [getJustTasks()]: a failure to run the listing yields no task. *)
Definition getJustTasks (run : Command -> thrown + string)
  (ALLOWED_TASKS : option (list string)) : list Task :=
  match run listCommand with
  | inr taskList => parseTaskList ALLOWED_TASKS taskList
  | inl _ => []
  end.

(** The command string given to [bash -c]. *)
Definition commandString (taskName : string) : string :=
  "just " ^^ taskName ^^ " " ^^ dquote ^^ "$@" ^^ dquote.

(** The command [executeJustTask] spawns. *)
Definition taskCommand (taskName : string) (args : list value) : Command :=
  mkCommand "bash"
    ([VString "-l"; VString "-c"; VString (commandString taskName);
      VString "--"] ++ args)
    PROJECT.

Definition drain (cs : list (stream * string)) (output : string) : string :=
  fold_left (fun out c => out ^^ snd c) cs output.

(** [executeJustTask(taskName, args)] *)
Definition executeJustTask (taskName : string) (args : list value)
  : thrown + string :=
  child <- host (taskCommand taskName args) ;;
  let output := drain (chunks child) EmptyString in
  ret (output ^^ lf ^^ "Process exited with code " ^^
       string_of_number (code child)).

(** The [execute] closure of a task's tool. *)
Definition execute (task : Task) (params : entries) : thrown + string :=
  catch
    (let args := processParameters params (parameters task) in
     output <- executeJustTask (task_name task) args ;;
     ret output)
    (fun error =>
       raise (ThrownError ("Failed to execute " ^^ task_name task ^^ ": " ^^
                           errorMessage error))).

Definition taskTool (task : Task) : Tool :=
  mkTool (task_name task) (description task) (paramSchema task) (execute task).

Definition cwdTool : Tool :=
  mkTool "cwd" "Get the working directory that the MCP server is running in"
         [] (fun _ => inr PROJECT).

(** The tools added to the server, in order. *)
Definition registerTools (ENABLE_DEBUG_TOOL : bool) (tasks : list Task)
  : list Tool :=
  (if ENABLE_DEBUG_TOOL then [cwdTool] else []) ++ map taskTool tasks.

End Server.

(** [ALLOWED_TASKS]: the value of the environment variable split at
    commas with every piece trimmed; [null] when the variable is unset. *)
Definition allowedTasks (env : option string) : option (list string) :=
  match env with
  | Some s => Some (map trim (splitChar ","%char EmptyString s))
  | None => None
  end.

(** [Deno.env.get(NAME)] read as a condition: set and not empty. *)
Definition flagSet (env : option string) : bool :=
  match env with
  | Some s => truthy_string s
  | None => false
  end.

(** The script from top to bottom: the tools it serves. *)
Definition startup (host : Host) (PROJECT : string)
  (ALLOWED_TASKS ENABLE_DEBUG_TOOL : option string)
  (run : Command -> thrown + string) : list Tool :=
  registerTools host PROJECT (flagSet ENABLE_DEBUG_TOOL)
    (getJustTasks PROJECT run (allowedTasks ALLOWED_TASKS)).

End ListVariant.

(* ===================================================================== *)
(** ** The serving library: from the request to the tool closure *)
(* ===================================================================== *)

Module Serving.
Import Js.




End Serving.

(* ===================================================================== *)
(** ** Notions the statements use *)
(* ===================================================================== *)

Module Spec.
Import Js.

(** What one supplied value contributes to the argument list: a string
    itself, a sequence its elements in order. *)
Definition contribution (v : value) : list value :=
  match v with
  | VString _ => [v]
  | VArray xs => xs
  | _ => []
  end.

(** The values of a map flattened in the map's own key order. *)
Definition flattened (o : entries) : list value :=
  flat_map (fun kv => contribution (snd kv)) o.

(** A value shaped as the schema of a parameter asks: a string for a
    single-valued parameter, a sequence of strings for a variadic one. *)
Definition shaped (isVariadic : bool) (v : value) : bool :=
  if isVariadic
  then match v with
       | VArray xs => forallb isString xs
       | _ => false
       end
  else isString v.

(** Every key names a declared parameter and carries a value of its
    shape (structured-dump variant). *)
Definition wellShapedDump (parameters : list DumpVariant.JustParameter)
  (o : entries) : bool :=
  forallb (fun kv =>
             match DumpVariant.findParameter parameters (fst kv) with
             | Some p =>
                 shaped (DumpVariant.variadic (DumpVariant.kind p)) (snd kv)
             | None => false
             end) o.

(** The same for the text-listing variant. *)
Definition wellShapedList (parameters : list ListVariant.TaskParameter)
  (o : entries) : bool :=
  forallb (fun kv =>
             match ListVariant.findParameter parameters (fst kv) with
             | Some p => shaped (ListVariant.isVarArgs p) (snd kv)
             | None => false
             end) o.

(** The note every description of an expression default ends with. *)
Definition expressionNote : string :=
  " recipe (default value is an expression in the Justfile)".

(** The final line of a tool result. *)
Definition exitLine (code : Z) : string :=
  "Process exited with code " ^^ string_of_number code.

(** All the text the pipes delivered, in order of arrival. *)
Definition combined (cs : list (stream * string)) : string :=
  String.concat EmptyString (map snd cs).

(** The fixed head of the argument vector given to [bash]: the options,
    the command string built from the recipe name, the separator. *)
Definition shellHead (recipeName : string) : list value :=
  [VString "-l"; VString "-c";
   VString ("just " ^^ recipeName ^^ " " ^^ dquote ^^ "$@" ^^ dquote);
   VString "--"].

(** The result of a tool call that spawned the child [c]. *)
Definition toolResult (c : Child) : string :=
  combined (chunks c) ^^ lf ^^ exitLine (code c).

(** The error of a tool call whose spawn threw [e]. *)
Definition toolError (recipeName : string) (e : thrown) : thrown :=
  ThrownError ("Failed to execute " ^^ recipeName ^^ ": " ^^ errorMessage e).


(** Every character of a string satisfies [f]. *)
Fixpoint allChars (f : ascii -> bool) (s : string) : bool :=
  match s with
  | EmptyString => true
  | String c r => f c && allChars f r
  end.

(** A string without white space. *)
Definition spaceFree (s : string) : bool :=
  allChars (fun c => negb (isWhiteSpace c)) s.

(** A string of white space only. *)
Definition blank (s : string) : bool := allChars isWhiteSpace s.

(** A name made of word characters, at least one. *)
Definition wordName (s : string) : bool :=
  truthy_string s && allChars isWordChar s.

(** The key of an entry names a declared parameter (structured-dump
    variant). *)
Definition declaredKey (parameters : list DumpVariant.JustParameter)
  (kv : string * value) : bool :=
  match DumpVariant.findParameter parameters (fst kv) with
  | Some _ => true
  | None => false
  end.

(** The text-listing view of a dumped parameter. *)
Definition asTaskParameter (p : DumpVariant.JustParameter)
  : ListVariant.TaskParameter :=
  ListVariant.mkTaskParameter (DumpVariant.name p)
    (DumpVariant.variadic (DumpVariant.kind p)).

(** The parameter a listing token stands for. *)
Definition tokenParameter (tok : string) : ListVariant.TaskParameter :=
  ListVariant.mkTaskParameter
    (if startsWith tok "$"%char || startsWith tok "*"%char
     then slice1 tok else tok)
    (startsWith tok "*"%char).

(** Reading a number back from its decimal text. *)
Definition number_of_string (s : string) : option Z :=
  option_map Z.of_int (NilZero.int_of_string s).




(** The words of a text: its maximal runs of characters other than white
    space, in order; [cur] is the word being read. *)
Fixpoint wordsFrom (cur : string) (s : string) : list string :=
  match s with
  | EmptyString =>
      match cur with EmptyString => [] | _ => [cur] end
  | String c r =>
      if isWhiteSpace c
      then match cur with
           | EmptyString => wordsFrom EmptyString r
           | _ => cur :: wordsFrom EmptyString r
           end
      else wordsFrom (cur ^^ String c EmptyString) r
  end.

Definition words (s : string) : list string := wordsFrom EmptyString s.

(** The node an object schema holds under a key. *)
Definition nodeAt (o : Zod.object) (k : string) : option Zod.ZodType :=
  option_map snd (find (fun ks => String.eqb (fst ks) k) o).

(** The last parameter of a task that bears a name. *)
Definition lastNamed (params : list ListVariant.TaskParameter) (k : string)
  : option ListVariant.TaskParameter :=
  find (fun p => String.eqb (ListVariant.name p) k) (rev params).

End Spec.

(* ===================================================================== *)
(** ** Recipes of the project's Justfiles, as the dump gives them *)
(* ===================================================================== *)

Module Fixtures.
Import Js DumpVariant.

(** The recipe [test_minimum_variable +ARGS] of the project's Justfile. *)
Definition test_minimum_variable : JustRecipe :=
  mkRecipe "test_minimum_variable"
           [mkParameter "ARGS" plus DefaultNull false]
           (Some "7. Recipe with at least one variable parameter required")
           [] [] false false false.

(** The recipe [deploy target="staging"] of the example Justfile. *)
Definition deploy : JustRecipe :=
  mkRecipe "deploy"
           [mkParameter "target" singular (DefaultString "staging") false]
           (Some "Deploy the project to a target (production or staging)")
           [] [] false false false.

(** The recipe [test *test_files] of the example Justfile. *)
Definition test : JustRecipe :=
  mkRecipe "test"
           [mkParameter "test_files" star DefaultNull false]
           (Some "Run a set of test files, by default all test files in the project.")
           [] [] false false false.

(** The recipe [build] of the example Justfile. *)
Definition build : JustRecipe :=
  mkRecipe "build" [] (Some "Build the project.") [] [] false false false.

(** A recipe without documentation comment. *)
Definition undocumented : JustRecipe :=
  mkRecipe "lint" [] None [] [] false false false.

End Fixtures.

(* ===================================================================== *)
(** ** Strings *)
(* ===================================================================== *)

Section StringFacts.

Lemma append_assoc (a b c : string) : (a ^^ b) ^^ c = a ^^ (b ^^ c).
Proof.
  induction a as [| x a IH]; simpl; [reflexivity | now rewrite IH].
Qed.

Lemma append_empty_r (a : string) : a ^^ EmptyString = a.
Proof.
  induction a as [| x a IH]; simpl; [reflexivity | now rewrite IH].
Qed.

Lemma truthy_string_iff (s : string) :
  Js.truthy_string s = true <-> s <> EmptyString.
Proof.
  destruct s; simpl; split; intros H; congruence.
Qed.

End StringFacts.

(* ===================================================================== *)
(** ** The Schema Synthesizer *)
(* ===================================================================== *)

Section SchemaSynthesizer.
Import Js DumpVariant.

Variable recipeName : string.

(** An expression default: the node is an optional string or an optional
    sequence of strings, by kind alone. *)
Lemma schema_of_expression_default (param : JustParameter) parts :
  default param = DefaultArray parts ->
  exists d,
    createParameterSchema param recipeName =
      Zod.describe d
        (Zod.optional (if variadic (kind param)
                       then Zod.array Zod.string_ else Zod.string_)) /\
    exists pre, d = pre ^^ Spec.expressionNote.
Proof.
  intros Hd. unfold createParameterSchema. rewrite Hd.
  destruct (variadic (kind param)); eexists; (split; [reflexivity |]).
  - exists ("Parameters for the " ^^ recipeName).
    unfold Spec.expressionNote; simpl; now rewrite ?append_assoc.
  - exists ("Optional parameter " ^^ name param ^^ " for the " ^^ recipeName).
    unfold Spec.expressionNote; simpl; now rewrite ?append_assoc.
Qed.

(** A [plus] parameter without default: a described sequence of strings of
    length at least one. *)
Lemma schema_of_plus_no_default (param : JustParameter) :
  kind param = plus -> default param = DefaultNull ->
  createParameterSchema param recipeName =
    Zod.describe ("Parameters for the " ^^ recipeName ^^
                  " recipe (at least one required)")
                 (Zod.min 1 (Zod.array Zod.string_)).
Proof.
  intros Hk Hd. unfold createParameterSchema. now rewrite Hd, Hk.
Qed.

(** A [plus] parameter with a non-empty literal default: an optional
    sequence of strings whose description shows the default. *)
Lemma schema_of_plus_literal_default (param : JustParameter) s :
  kind param = plus -> default param = DefaultString s -> s <> EmptyString ->
  createParameterSchema param recipeName =
    Zod.describe ("Parameters for the " ^^ recipeName ^^
                  " recipe (default: " ^^ s ^^ ")")
                 (Zod.optional (Zod.array Zod.string_)).
Proof.
  intros Hk Hd Hs. unfold createParameterSchema. rewrite Hd, Hk. simpl.
  destruct s; [congruence | reflexivity].
Qed.

(** A [star] parameter with a literal or no default: always optional. *)
Lemma schema_of_star (param : JustParameter) :
  kind param = star -> (forall parts, default param <> DefaultArray parts) ->
  createParameterSchema param recipeName =
    Zod.describe ("Parameters for the " ^^ recipeName ^^
                  " recipe (not required)")
                 (Zod.optional (Zod.array Zod.string_)).
Proof.
  intros Hk Hd. unfold createParameterSchema. rewrite Hk.
  destruct (default param) as [| s | parts]; simpl; try reflexivity.
  now elim (Hd parts).
Qed.

(** A [singular] parameter with a non-empty literal default: an optional
    string whose description shows the default. *)
Lemma schema_of_singular_literal_default (param : JustParameter) s :
  kind param = singular -> default param = DefaultString s ->
  s <> EmptyString ->
  createParameterSchema param recipeName =
    Zod.describe ("Optional parameter " ^^ name param ^^ " (default: " ^^
                  s ^^ ")")
                 (Zod.optional Zod.string_).
Proof.
  intros Hk Hd Hs. unfold createParameterSchema. rewrite Hd, Hk. simpl.
  destruct s; [congruence | reflexivity].
Qed.

(** A [singular] parameter without default: a required string. *)
Lemma schema_of_singular_no_default (param : JustParameter) :
  kind param = singular -> default param = DefaultNull ->
  createParameterSchema param recipeName =
    Zod.describe ("Required parameter " ^^ name param) Zod.string_.
Proof.
  intros Hk Hd. unfold createParameterSchema. now rewrite Hd, Hk.
Qed.

(** The empty string is a literal default the synthesizer takes for none:
    whatever the kind, the node is the one of a parameter without
    default. *)
Lemma schema_of_empty_default (n : string) (k : Kind) (e : bool) :
  createParameterSchema (mkParameter n k (DefaultString EmptyString) e)
                        recipeName =
  createParameterSchema (mkParameter n k DefaultNull e) recipeName.
Proof. destruct k; reflexivity. Qed.

(** A value the node of a parameter accepts is [undefined] or has the shape
    of the parameter: a string when it is single, a sequence of strings
    when it is variadic. *)
Lemma accepted_is_shaped (param : JustParameter) (v : value) :
  Zod.accepts (createParameterSchema param recipeName) v = true ->
  v = VUndefined \/ Spec.shaped (variadic (kind param)) v = true.
Proof.
  unfold createParameterSchema.
  destruct (default param) as [| s | parts], (kind param); simpl;
    try destruct (truthy_string s); simpl;
    destruct v; simpl; intros H; try discriminate; auto;
    right; try (apply andb_prop in H as [H _]); exact H.
Qed.

End SchemaSynthesizer.

Section SchemaScenarios.
Import Js DumpVariant Fixtures.

(** What the minimum-length node accepts: non-empty sequences of strings. *)
Lemma plus_no_default_accepts (param : JustParameter) recipeName :
  kind param = plus -> default param = DefaultNull ->
  let s := createParameterSchema param recipeName in
  Zod.isRequired s = true /\
  forall xs, Zod.accepts s (VArray xs) =
             forallb isString xs && Nat.leb 1 (List.length xs).
Proof.
  intros Hk Hd s. subst s.
  rewrite (schema_of_plus_no_default recipeName param Hk Hd).
  split; [reflexivity | intros xs; reflexivity].
Qed.

(** Scenario 3: the empty sequence is turned down by the schema, a
    singleton passes and marshals to itself. *)
Example scenario_minimum_variable :
  let shape := parametersSchema "test_minimum_variable" test_minimum_variable in
  Zod.object_accepts shape [("ARGS", VArray [])] = false /\
  Zod.object_accepts shape [] = false /\
  Zod.object_accepts shape [("ARGS", VArray [VString "x"])] = true /\
  processParameters (Some [("ARGS", VArray [VString "x"])])
                    (parameters test_minimum_variable) = [VString "x"].
Proof. repeat split. Qed.

(** Scenario 1: the field is optional, the empty map marshals to no
    argument, a given target to that one argument. *)
Example scenario_deploy :
  let shape := parametersSchema "deploy" deploy in
  shape = [("target",
            Zod.describe "Optional parameter target (default: staging)"
                         (Zod.optional Zod.string_))] /\
  Zod.object_accepts shape [] = true /\
  processParameters (Some []) (parameters deploy) = [] /\
  Zod.object_accepts shape [("target", VString "production")] = true /\
  processParameters (Some [("target", VString "production")])
                    (parameters deploy) = [VString "production"].
Proof. repeat split. Qed.

End SchemaScenarios.

Section SchemaClaims.
Import Js DumpVariant.

(** C1: a parameter whose default is an unresolved expression (an array in
    the dump) gets an optional node, never a required one, whatever its
    kind: a plain string node when the kind is singular, a
    sequence-of-strings node when it is star or plus; and the description
    ends with the note that the default value is an expression in the
    Justfile. *)
Theorem C1_expression_default_is_optional
  (param : JustParameter) (recipeName : string) (parts : list value) :
  default param = DefaultArray parts ->
  let s := createParameterSchema param recipeName in
  Zod.isRequired s = false /\
  (kind param = singular -> Zod.core s = Zod.string_) /\
  (kind param = star \/ kind param = plus ->
   Zod.core s = Zod.array Zod.string_) /\
  exists pre, Zod.description s = Some (pre ^^ Spec.expressionNote).
Proof.
  intros Hd s. subst s.
  destruct (schema_of_expression_default recipeName param parts Hd)
    as (d & -> & pre & ->).
  repeat split.
  - intros ->. reflexivity.
  - intros [-> | ->]; reflexivity.
  - exists pre. reflexivity.
Qed.

(** C1 at the parameter [triple=(arch + "-unknown-unknown")] of the
    project's Justfile. *)
Lemma C1_witness :
  let param :=
    mkParameter "triple" singular
      (DefaultArray [VString "concatenate";
                     VArray [VString "variable"; VString "arch"];
                     VString "-unknown-unknown"]) false in
  let s := createParameterSchema param "test_expression_args" in
  Zod.isRequired s = false /\
  (kind param = singular -> Zod.core s = Zod.string_) /\
  (kind param = star \/ kind param = plus ->
   Zod.core s = Zod.array Zod.string_) /\
  exists pre, Zod.description s = Some (pre ^^ Spec.expressionNote).
Proof.
  exact (C1_expression_default_is_optional
           (mkParameter "triple" singular
              (DefaultArray [VString "concatenate";
                             VArray [VString "variable"; VString "arch"];
                             VString "-unknown-unknown"]) false)
           "test_expression_args" _ eq_refl).
Defined.

(** C2, at a [plus] parameter whose literal default is the empty string:
    the synthesizer takes the empty default for none and builds the
    required node of minimum length one, so a call that leaves the
    parameter out is turned down although a literal default exists. *)
Theorem C2_plus_empty_default_is_required :
  let param := mkParameter "ARGS" plus (DefaultString EmptyString) false in
  let s := createParameterSchema param "r" in
  s = Zod.describe "Parameters for the r recipe (at least one required)"
                   (Zod.min 1 (Zod.array Zod.string_)) /\
  Zod.isRequired s = true /\
  Zod.object_accepts [("ARGS", s)] [] = false.
Proof. repeat split. Qed.

(** C3, at a [singular] parameter whose literal default is the empty
    string: the synthesizer takes the empty default for none and builds a
    required string node, so the empty map is turned down although a
    literal default exists. *)
Theorem C3_singular_empty_default_is_required :
  let param := mkParameter "target" singular (DefaultString EmptyString) false in
  let s := createParameterSchema param "deploy" in
  s = Zod.describe "Required parameter target" Zod.string_ /\
  Zod.isRequired s = true /\
  Zod.object_accepts [("target", s)] [] = false.
Proof. repeat split. Qed.

End SchemaClaims.

(* ===================================================================== *)
(** ** The Argument Marshaller *)
(* ===================================================================== *)

Section Marshaller.
Import Js.

(** A value of the right shape is pushed whole. *)
Lemma shaped_contribution (isVariadic : bool) (v : value) :
  Spec.shaped isVariadic v = true ->
  (if isVariadic && isArray v then elements v
   else if isString v then [v] else []) = Spec.contribution v /\
  Forall (fun x => isString x = true) (Spec.contribution v).
Proof.
  destruct isVariadic, v; simpl; intros H; try discriminate; split;
    try reflexivity.
  - apply Forall_forall. now apply forallb_forall.
  - repeat constructor.
Qed.

(** The loop of the structured-dump variant, from any [args] on. *)
Lemma dump_loop_flattens parameters (o : entries) : forall args,
  Spec.wellShapedDump parameters o = true ->
  fold_left (DumpVariant.pushEntry parameters) o args =
  args ++ Spec.flattened o.
Proof.
  induction o as [| [k v] o IH]; intros args H; simpl.
  - now rewrite app_nil_r.
  - simpl in H. apply andb_prop in H as [Hkv Ho].
    rewrite (IH _ Ho), app_assoc. f_equal.
    destruct (DumpVariant.findParameter parameters k) as [p |];
      [| discriminate].
    destruct (shaped_contribution _ _ Hkv) as [<- _].
    destruct (DumpVariant.variadic (DumpVariant.kind p) && isArray v);
      [reflexivity |].
    destruct (isString v); [reflexivity | now rewrite app_nil_r].
Qed.

(** The loop of the text-listing variant, from any [args] on. *)
Lemma list_loop_flattens parameters (o : entries) : forall args,
  Spec.wellShapedList parameters o = true ->
  fold_left (ListVariant.pushEntry parameters) o args =
  args ++ Spec.flattened o.
Proof.
  induction o as [| [k v] o IH]; intros args H; simpl.
  - now rewrite app_nil_r.
  - simpl in H. apply andb_prop in H as [Hkv Ho].
    rewrite (IH _ Ho), app_assoc. f_equal.
    destruct (ListVariant.findParameter parameters k) as [p |];
      [| discriminate].
    destruct (shaped_contribution _ _ Hkv) as [<- _]. simpl.
    destruct (ListVariant.isVarArgs p && isArray v); [reflexivity |].
    destruct (isString v); [reflexivity | now rewrite app_nil_r].
Qed.

(** Every argument of a map of shaped values is a string. *)
Lemma flattened_strings (o : entries) :
  (forall kv, In kv o -> exists b, Spec.shaped b (snd kv) = true) ->
  Forall (fun x => isString x = true) (Spec.flattened o).
Proof.
  induction o as [| [k v] o IH]; simpl; intros H; [constructor |].
  apply Forall_app. split.
  - destruct (H (k, v)) as [b Hb]; [now left |].
    now apply (shaped_contribution b v).
  - apply IH. intros kv Hin. apply H. now right.
Qed.

(** In the structured-dump variant a key without declared parameter leaves
    [args] as it is, whatever its value. *)
Lemma dump_unknown_key_skipped parameters args k v :
  DumpVariant.findParameter parameters k = None ->
  DumpVariant.pushEntry parameters args (k, v) = args.
Proof. intros H. unfold DumpVariant.pushEntry. now rewrite H. Qed.


(** In the text-listing variant a string under an unknown key is pushed. *)
Lemma list_unknown_string_pushed parameters args k s :
  ListVariant.findParameter parameters k = None ->
  ListVariant.pushEntry parameters args (k, VString s) = args ++ [VString s].
Proof. intros H. unfold ListVariant.pushEntry. now rewrite H. Qed.

(** C4: when every key of the value map names a declared parameter and
    every value has the shape of its parameter (a string for a single
    parameter, a sequence of strings for a variadic one), the marshaller of
    either variant returns exactly the values flattened in the map's own key
    order, a string giving one argument and a sequence all its elements in
    order; and every argument is a string. *)
Theorem C4_marshaller_flattens_in_key_order (o : entries) :
  (forall parameters,
     Spec.wellShapedDump parameters o = true ->
     DumpVariant.processParameters (Some o) parameters = Spec.flattened o /\
     Forall (fun x => isString x = true) (Spec.flattened o)) /\
  (forall parameters,
     Spec.wellShapedList parameters o = true ->
     ListVariant.processParameters o parameters = Spec.flattened o /\
     Forall (fun x => isString x = true) (Spec.flattened o)).
Proof.
  split; intros parameters H; split.
  - exact (dump_loop_flattens parameters o [] H).
  - apply flattened_strings. intros kv Hin.
    unfold Spec.wellShapedDump in H. rewrite forallb_forall in H.
    specialize (H kv Hin).
    destruct (DumpVariant.findParameter parameters (fst kv));
      [eexists; exact H | discriminate].
  - exact (list_loop_flattens parameters o [] H).
  - apply flattened_strings. intros kv Hin.
    unfold Spec.wellShapedList in H. rewrite forallb_forall in H.
    specialize (H kv Hin).
    destruct (ListVariant.findParameter parameters (fst kv));
      [eexists; exact H | discriminate].
Qed.

(** C4 at a map that names the parameters in another order than the
    recipe declares them. *)
Lemma C4_witness :
  let o := [("ARGS", VArray [VString "a"; VString "b"]); ("arg", VString "x")] in
  let declared :=
    [DumpVariant.mkParameter "arg" DumpVariant.singular
                             DumpVariant.DefaultNull false;
     DumpVariant.mkParameter "ARGS" DumpVariant.star
                             DumpVariant.DefaultNull false] in
  let listed :=
    [ListVariant.mkTaskParameter "arg" false;
     ListVariant.mkTaskParameter "ARGS" true] in
  (Spec.wellShapedDump declared o = true /\
   DumpVariant.processParameters (Some o) declared
   = [VString "a"; VString "b"; VString "x"]) /\
  (Spec.wellShapedList listed o = true /\
   ListVariant.processParameters o listed
   = [VString "a"; VString "b"; VString "x"]).
Proof.
  intros o declared listed. split; (split; [reflexivity |]).
  - refine (proj1 (proj1 (C4_marshaller_flattens_in_key_order o) declared _)).
    reflexivity.
  - refine (proj1 (proj2 (C4_marshaller_flattens_in_key_order o) listed _)).
    reflexivity.
Defined.

(** The two marshallers called by hand on a map with one unknown key and
    a recipe without parameter: the structured-dump one returns nothing,
    the text-listing one pushes the string. *)
Lemma marshallers_on_unknown_string :
  DumpVariant.processParameters (Some [("bogus", VString "x")]) [] = [] /\
  ListVariant.processParameters [("bogus", VString "x")] [] = [VString "x"].
Proof. split; reflexivity. Qed.

End Marshaller.

(* ===================================================================== *)
(** ** The Recipe Executor and the tool closure *)
(* ===================================================================== *)

Section Executor.
Import Js.

Lemma concat_empty_cons (x : string) (xs : list string) :
  String.concat EmptyString (x :: xs) = x ^^ String.concat EmptyString xs.
Proof.
  destruct xs as [| y ys]; simpl; [now rewrite append_empty_r | reflexivity].
Qed.

(** Draining appends every chunk, in order of arrival, to what was read. *)
Lemma dump_drain_combined (cs : list (stream * string)) : forall output,
  DumpVariant.drain cs output = output ^^ Spec.combined cs.
Proof.
  unfold DumpVariant.drain, Spec.combined.
  induction cs as [| c cs IH]; intros output.
  - simpl. now rewrite append_empty_r.
  - cbn [fold_left map]. rewrite IH, concat_empty_cons.
    now rewrite append_assoc.
Qed.

Lemma list_drain_combined (cs : list (stream * string)) (output : string) :
  ListVariant.drain cs output = output ^^ Spec.combined cs.
Proof. exact (dump_drain_combined cs output). Qed.

Variable host : Host.
Variable PROJECT : string.

(** [executeRecipe] on the outcome of its spawn. *)
Lemma executeRecipe_outcome Deno_args recipeName args :
  DumpVariant.executeRecipe host PROJECT Deno_args recipeName args =
  match host (DumpVariant.recipeCommand PROJECT Deno_args recipeName args) with
  | inl e => inl e
  | inr child => inr (Spec.toolResult child)
  end.
Proof.
  unfold DumpVariant.executeRecipe. simpl.
  destruct (host _) as [e | child]; [reflexivity |].
  now rewrite dump_drain_combined.
Qed.

(** [executeJustTask] on the outcome of its spawn. *)
Lemma executeJustTask_outcome taskName args :
  ListVariant.executeJustTask host PROJECT taskName args =
  match host (ListVariant.taskCommand PROJECT taskName args) with
  | inl e => inl e
  | inr child => inr (Spec.toolResult child)
  end.
Proof.
  unfold ListVariant.executeJustTask. simpl.
  destruct (host _) as [e | child]; [reflexivity |].
  now rewrite list_drain_combined.
Qed.

(** The tool closure of the structured-dump variant on the outcome of the
    one spawn it makes. *)
Lemma dump_execute_outcome Deno_args recipeName recipe params :
  DumpVariant.execute host PROJECT Deno_args recipeName recipe params =
  match host (DumpVariant.recipeCommand PROJECT Deno_args recipeName
                (DumpVariant.processParameters params
                   (DumpVariant.parameters recipe))) with
  | inl e => inl (Spec.toolError recipeName e)
  | inr child => inr (Spec.toolResult child)
  end.
Proof.
  unfold DumpVariant.execute. cbn [catch Exception_either].
  cbn [bind ret Monad_either]. rewrite executeRecipe_outcome.
  now destruct (host _).
Qed.

(** The tool closure of the text-listing variant likewise. *)
Lemma list_execute_outcome task params :
  ListVariant.execute host PROJECT task params =
  match host (ListVariant.taskCommand PROJECT (ListVariant.task_name task)
                (ListVariant.processParameters params
                   (ListVariant.parameters task))) with
  | inl e => inl (Spec.toolError (ListVariant.task_name task) e)
  | inr child => inr (Spec.toolResult child)
  end.
Proof.
  unfold ListVariant.execute. cbn [catch Exception_either].
  cbn [bind ret Monad_either]. rewrite executeJustTask_outcome.
  now destruct (host _).
Qed.

End Executor.

Section ExecutorClaims.
Import Js.

(** C6: when the spawn succeeds, the executor of either variant returns
    the text both pipes delivered, in order of arrival, followed by a line
    feed and [Process exited with code N], N being the exit status of the
    child; a child that wrote [ok] and a line feed to its standard output
    and exited with status 0 gives exactly that text, a blank line apart
    from the exit-code line. *)
Theorem C6_executor_appends_exit_line
  (host : Host) (PROJECT : string) (name : string) (args : list value)
  (child : Child) :
  (forall Deno_args,
     host (DumpVariant.recipeCommand PROJECT Deno_args name args) = inr child ->
     DumpVariant.executeRecipe host PROJECT Deno_args name args =
     inr (Spec.combined (chunks child) ^^ lf ^^
          "Process exited with code " ^^ string_of_number (code child))) /\
  (host (ListVariant.taskCommand PROJECT name args) = inr child ->
   ListVariant.executeJustTask host PROJECT name args =
   inr (Spec.combined (chunks child) ^^ lf ^^
        "Process exited with code " ^^ string_of_number (code child))) /\
  (chunks child = [(stdout, "ok" ^^ lf)] -> code child = 0%Z ->
   Spec.combined (chunks child) ^^ lf ^^
   "Process exited with code " ^^ string_of_number (code child) =
   "ok" ^^ lf ^^ lf ^^ "Process exited with code 0").
Proof.
  repeat split.
  - intros Deno_args H. now rewrite executeRecipe_outcome, H.
  - intros H. now rewrite executeJustTask_outcome, H.
  - intros -> ->. reflexivity.
Qed.

(** C6 at a host whose every spawn yields the child of scenario 4. *)
Lemma C6_witness :
  let child := mkChild [(stdout, "ok" ^^ lf)] 0 in
  let host : Host := fun _ => inr child in
  DumpVariant.executeRecipe host "/project" [] "build" [] =
    inr ("ok" ^^ lf ^^ lf ^^ "Process exited with code 0") /\
  ListVariant.executeJustTask host "/project" "build" [] =
    inr ("ok" ^^ lf ^^ lf ^^ "Process exited with code 0").
Proof.
  intros child host.
  pose proof (C6_executor_appends_exit_line host "/project" "build" [] child)
    as (Hdump & Hlist & Hok).
  split.
  - exact (Hdump [] eq_refl).
  - exact (Hlist eq_refl).
Defined.

(** C7: the tool closure of either variant raises exactly when the spawn
    throws; the error then carries the message of what was thrown behind
    [Failed to execute NAME: ], and nothing else is returned; when the spawn
    succeeds the closure returns the output text ending in the exit-code
    line, whatever the exit status. *)
Theorem C7_tool_call_fails_iff_spawn_fails
  (host : Host) (PROJECT : string) :
  (forall Deno_args recipeName recipe params,
     let cmd := DumpVariant.recipeCommand PROJECT Deno_args recipeName
                  (DumpVariant.processParameters params
                     (DumpVariant.parameters recipe)) in
     let call := DumpVariant.execute host PROJECT Deno_args recipeName
                   recipe params in
     ((exists err, call = inl err) <-> (exists e, host cmd = inl e)) /\
     (forall e, host cmd = inl e ->
        call = inl (ThrownError ("Failed to execute " ^^ recipeName ^^ ": " ^^
                                 errorMessage e))) /\
     (forall child, host cmd = inr child ->
        call = inr (Spec.combined (chunks child) ^^ lf ^^
                    "Process exited with code " ^^
                    string_of_number (code child)))) /\
  (forall task params,
     let cmd := ListVariant.taskCommand PROJECT (ListVariant.task_name task)
                  (ListVariant.processParameters params
                     (ListVariant.parameters task)) in
     let call := ListVariant.execute host PROJECT task params in
     ((exists err, call = inl err) <-> (exists e, host cmd = inl e)) /\
     (forall e, host cmd = inl e ->
        call = inl (ThrownError ("Failed to execute " ^^
                                 ListVariant.task_name task ^^ ": " ^^
                                 errorMessage e))) /\
     (forall child, host cmd = inr child ->
        call = inr (Spec.combined (chunks child) ^^ lf ^^
                    "Process exited with code " ^^
                    string_of_number (code child)))).
Proof.
  split.
  - intros Deno_args recipeName recipe params cmd call. subst call.
    rewrite dump_execute_outcome. fold cmd.
    destruct (host cmd) as [e | child]; repeat split.
    + intros _. now exists e.
    + intros _. now eexists.
    + now intros e' [= <-].
    + discriminate.
    + now intros [err Herr].
    + now intros [e He].
    + discriminate.
    + now intros child' [= <-].
  - intros task params cmd call. subst call.
    rewrite list_execute_outcome. fold cmd.
    destruct (host cmd) as [e | child]; repeat split.
    + intros _. now exists e.
    + intros _. now eexists.
    + now intros e' [= <-].
    + discriminate.
    + now intros [err Herr].
    + now intros [e He].
    + discriminate.
    + now intros child' [= <-].
Qed.

(** C8: the argument vector given to [bash] begins, in either variant,
    with [-l], [-c], the command string [just NAME "$@"] and [--]; the
    command string is the same for any two argument lists, and the
    arguments stand only after the separator. *)
Theorem C8_command_string_depends_on_name_only
  (PROJECT : string) (name : string) :
  let commandString := "just " ^^ name ^^ " " ^^ dquote ^^ "$@" ^^ dquote in
  (forall Deno_args args1 args2,
     let cmd1 := DumpVariant.recipeCommand PROJECT Deno_args name args1 in
     let cmd2 := DumpVariant.recipeCommand PROJECT Deno_args name args2 in
     program cmd1 = "bash" /\
     nth_error (Js.args cmd1) 2 = Some (VString commandString) /\
     nth_error (Js.args cmd2) 2 = Some (VString commandString) /\
     firstn 4 (Js.args cmd1) = firstn 4 (Js.args cmd2) /\
     nth_error (Js.args cmd1) 3 = Some (VString "--") /\
     skipn 4 (Js.args cmd1) = map VString Deno_args ++ args1 /\
     skipn 4 (Js.args cmd2) = map VString Deno_args ++ args2) /\
  (forall args1 args2,
     let cmd1 := ListVariant.taskCommand PROJECT name args1 in
     let cmd2 := ListVariant.taskCommand PROJECT name args2 in
     program cmd1 = "bash" /\
     nth_error (Js.args cmd1) 2 = Some (VString commandString) /\
     nth_error (Js.args cmd2) 2 = Some (VString commandString) /\
     firstn 4 (Js.args cmd1) = firstn 4 (Js.args cmd2) /\
     nth_error (Js.args cmd1) 3 = Some (VString "--") /\
     skipn 4 (Js.args cmd1) = args1 /\
     skipn 4 (Js.args cmd2) = args2).
Proof.
  intros commandString. split.
  - intros Deno_args args1 args2 cmd1 cmd2. repeat split.
  - intros args1 args2 cmd1 cmd2. repeat split.
Qed.

(** C10: in the structured-dump variant the arguments standing after the
    separator in the vector given to [bash] are the command-line arguments
    of the server followed by the marshalled caller arguments, for the
    command every tool call spawns; and at startup [getJustRecipes] runs
    [just] with the same command-line arguments before
    [--dump --dump-format json]: what it returns, and how the script
    starts, is decided by the outcome of that one command. *)
Theorem C10_server_arguments_are_prepended
  (host : Host) (PROJECT : string) (Deno_args : list string)
  (recipeName : string) (recipe : DumpVariant.JustRecipe)
  (params : option entries) :
  let marshalled :=
    DumpVariant.processParameters params (DumpVariant.parameters recipe) in
  let cmd := mkCommand "bash"
               (Spec.shellHead recipeName ++
                map VString Deno_args ++ marshalled) PROJECT in
  let dump := mkCommand "just"
                (map VString Deno_args ++
                 [VString "--dump"; VString "--dump-format"; VString "json"])
                PROJECT in
  DumpVariant.recipeCommand PROJECT Deno_args recipeName marshalled = cmd /\
  skipn 4 (Js.args cmd) = map VString Deno_args ++ marshalled /\
  DumpVariant.execute host PROJECT Deno_args recipeName recipe params =
    match host cmd with
    | inl e => inl (Spec.toolError recipeName e)
    | inr child => inr (Spec.toolResult child)
    end /\
  (forall run parse,
     DumpVariant.getJustRecipes PROJECT Deno_args run parse =
     match run dump with
     | inr out =>
         match parse out with
         | inr recipes => Some recipes
         | inl _ => None
         end
     | inl _ => None
     end) /\
  (forall ALLOWED_RECIPES ENABLE_DEBUG_TOOL SHOW_RECIPES run parse,
     DumpVariant.startup host PROJECT Deno_args ALLOWED_RECIPES
       ENABLE_DEBUG_TOOL SHOW_RECIPES run parse =
     match run dump with
     | inr out =>
         match parse out with
         | inr recipes =>
             if DumpVariant.flagSet SHOW_RECIPES then DumpVariant.Exited 0
             else DumpVariant.Serving
                    (DumpVariant.registerTools host PROJECT Deno_args
                       (DumpVariant.flagSet ENABLE_DEBUG_TOOL)
                       (DumpVariant.flagSet SHOW_RECIPES)
                       (DumpVariant.allowedRecipes ALLOWED_RECIPES) recipes)
         | inl _ => DumpVariant.Exited 1
         end
     | inl _ => DumpVariant.Exited 1
     end).
Proof.
  intros marshalled cmd dump.
  assert (Hdump : DumpVariant.dumpCommand PROJECT Deno_args = dump)
    by (unfold DumpVariant.dumpCommand, dump; now rewrite map_app).
  assert (Hget : forall run parse,
             DumpVariant.getJustRecipes PROJECT Deno_args run parse =
             match run dump with
             | inr out =>
                 match parse out with
                 | inr recipes => Some recipes
                 | inl _ => None
                 end
             | inl _ => None
             end).
  { intros run parse. unfold DumpVariant.getJustRecipes. rewrite Hdump.
    cbn [bind Monad_either].
    destruct (run dump) as [e | out]; [reflexivity |].
    now destruct (parse out). }
  repeat split.
  - apply dump_execute_outcome.
  - exact Hget.
  - intros allowedEnv debugEnv showEnv run parse.
    unfold DumpVariant.startup. rewrite Hget.
    destruct (run dump) as [e | out]; [reflexivity |].
    now destruct (parse out).
Qed.

End ExecutorClaims.

(* ===================================================================== *)
(** ** The Tool Registrar *)
(* ===================================================================== *)

Section Registrar.
Import Js.

Variable host : Host.
Variable PROJECT : string.



(** Every tool the registration loop of the structured-dump variant ends
    with was there before or is the tool of a recipe it went through. *)
Lemma dump_registered Deno_args allowed (recipes : DumpVariant.Recipes) :
  forall tools t,
  In t (fold_left
          (fun tools entry =>
             let (recipeName, recipe) :=
               entry : string * DumpVariant.JustRecipe in
             if DumpVariant.filteredOut allowed recipeName then tools
             else if false then tools
             else tools ++ [DumpVariant.recipeTool host PROJECT Deno_args
                              recipeName recipe])
          recipes tools) ->
  In t tools \/
  exists recipeName recipe,
    In (recipeName, recipe) recipes /\
    DumpVariant.filteredOut allowed recipeName = false /\
    t = DumpVariant.recipeTool host PROJECT Deno_args recipeName recipe.
Proof.
  induction recipes as [| [recipeName recipe] recipes IH]; intros tools t Ht.
  - now left.
  - cbn [fold_left] in Ht. apply IH in Ht as [Ht | (n & r & Hin & Hf & ->)].
    + destruct (DumpVariant.filteredOut allowed recipeName) eqn:Hf;
        [now left |].
      apply in_app_or in Ht as [Ht | [<- | []]]; [now left |].
      right. exists recipeName, recipe. repeat split; [now left | exact Hf].
    + right. exists n, r. repeat split; [now right | exact Hf].
Qed.

(** Every task read off a listing comes from one of its lines. *)
Lemma list_parsed allowed (lines : list string) : forall tasks t,
  In t (fold_left (ListVariant.pushTask allowed) lines tasks) ->
  In t tasks \/
  exists line taskName argsStr comment,
    In line lines /\
    ListVariant.matchLine line = Some (taskName, argsStr, comment) /\
    ListVariant.filteredOut allowed taskName = false /\
    t = ListVariant.mkTask taskName
          (ListVariant.taskDescription taskName (ListVariant.orEmpty comment))
          (ListVariant.parseParams (ListVariant.orEmpty argsStr)).
Proof.
  induction lines as [| line lines IH]; intros tasks t Ht.
  - now left.
  - cbn [fold_left] in Ht.
    apply IH in Ht as [Ht | (l & n & a & c & Hin & Hm & Hf & ->)].
    + unfold ListVariant.pushTask in Ht.
      destruct (ListVariant.matchLine line) as [[[n a] c] |] eqn:Hm;
        [| now left].
      destruct (ListVariant.filteredOut allowed n) eqn:Hf; [now left |].
      apply in_app_or in Ht as [Ht | [<- | []]]; [now left |].
      right. exists line, n, a, c. repeat split; [now left | exact Hm | exact Hf].
    + right. exists l, n, a, c. repeat split; [now right | exact Hm | exact Hf].
Qed.

End Registrar.

Section RegistrarClaims.
Import Js.


(** C7 at a host that cannot spawn in a missing directory and at a host
    whose child exits with status 1. *)
Lemma C7_witness :
  let missing : Host :=
    fun _ => inl (ThrownError "No such file or directory (os error 2)") in
  let failing : Host :=
    fun _ => inr (mkChild [(stderr, "error: Recipe failed" ^^ lf)] 1) in
  DumpVariant.execute missing "/missing" [] "build" Fixtures.build (Some []) =
    inl (ThrownError
           "Failed to execute build: No such file or directory (os error 2)") /\
  DumpVariant.execute failing "/project" [] "build" Fixtures.build (Some []) =
    inr ("error: Recipe failed" ^^ lf ^^ lf ^^ "Process exited with code 1").
Proof.
  intros missing failing. split.
  - exact (proj1 (proj2 (proj1 (C7_tool_call_fails_iff_spawn_fails
                                  missing "/missing")
                           [] "build" Fixtures.build (Some [])))
             _ eq_refl).
  - exact (proj2 (proj2 (proj1 (C7_tool_call_fails_iff_spawn_fails
                                  failing "/project")
                           [] "build" Fixtures.build (Some [])))
             _ eq_refl).
Defined.

End RegistrarClaims.

(* ===================================================================== *)
(** ** Scanning text: spans, trimming, splitting *)
(* ===================================================================== *)

Section Scanning.
Import Js.

(** [span] cuts the string in two, the first part satisfying the test and
    the second, when not empty, starting with a character that fails it. *)
Lemma span_spec (f : ascii -> bool) (s : string) :
  let (a, b) := span f s in
  s = a ^^ b /\ Spec.allChars f a = true /\
  match b with
  | EmptyString => True
  | String c _ => f c = false
  end.
Proof.
  induction s as [| c r IH]; simpl; [now repeat split |].
  destruct (f c) eqn:Hc.
  - destruct (span f r) as [a b]. destruct IH as (-> & Ha & Hb).
    simpl. rewrite Hc, Ha. now repeat split.
  - now repeat split.
Qed.

Lemma span_all (f : ascii -> bool) (s : string) :
  Spec.allChars f s = true -> span f s = (s, EmptyString).
Proof.
  induction s as [| c r IH]; simpl; [reflexivity |].
  intros H. apply andb_prop in H as [-> Hr]. now rewrite (IH Hr).
Qed.

Lemma span_none (f : ascii -> bool) (c : ascii) (r : string) :
  f c = false -> span f (String c r) = (EmptyString, String c r).
Proof. intros H. simpl. now rewrite H. Qed.

(** Trimming a blank string leaves nothing. *)
Lemma trim_blank (s : string) :
  Spec.blank s = true -> trim s = EmptyString.
Proof.
  intros H. unfold trim, trimStart. now rewrite (span_all _ _ H).
Qed.

Lemma trimEnd_spaceFree (s : string) :
  Spec.spaceFree s = true -> trimEnd s = s.
Proof.
  induction s as [| c r IH]; simpl; [reflexivity |].
  unfold Spec.spaceFree. simpl. intros H. apply andb_prop in H as [Hc Hr].
  rewrite (IH Hr). apply negb_true_iff in Hc. rewrite Hc.
  now destruct r.
Qed.

(** Trimming a string without white space changes nothing. *)
Lemma trim_spaceFree (s : string) :
  Spec.spaceFree s = true -> trim s = s.
Proof.
  intros H. unfold trim, trimStart.
  destruct s as [| c r]; [reflexivity |].
  pose proof H as H'. unfold Spec.spaceFree in H'. simpl in H'.
  apply andb_prop in H' as [Hc _]. apply negb_true_iff in Hc.
  rewrite (span_none _ _ _ Hc). simpl snd. now apply trimEnd_spaceFree.
Qed.

Lemma allChars_app (f : ascii -> bool) (a b : string) :
  Spec.allChars f (a ^^ b) = Spec.allChars f a && Spec.allChars f b.
Proof.
  induction a as [| c a IH]; simpl; [reflexivity |].
  now rewrite IH, andb_assoc.
Qed.

(** Every piece of a split at white space is free of white space. *)
Lemma splitSpaces_spaceFree (s : string) : forall inSep cur,
  Spec.spaceFree cur = true ->
  Forall (fun t => Spec.spaceFree t = true) (splitSpaces inSep cur s).
Proof.
  induction s as [| c r IH]; intros inSep cur Hcur; simpl.
  - now constructor.
  - destruct (isWhiteSpace c) eqn:Hc.
    + destruct inSep; [now apply IH |].
      constructor; [exact Hcur | now apply IH].
    + apply IH. unfold Spec.spaceFree. rewrite allChars_app. simpl.
      fold (Spec.spaceFree cur). now rewrite Hcur, Hc.
Qed.

(** Splitting a blank string gives empty pieces only. *)
Lemma splitSpaces_blank (s : string) : forall inSep,
  Spec.blank s = true ->
  Forall (fun t => t = EmptyString) (splitSpaces inSep EmptyString s).
Proof.
  induction s as [| c r IH]; intros inSep H; simpl.
  - now constructor.
  - unfold Spec.blank in H. simpl in H. apply andb_prop in H as [-> Hr].
    destruct inSep; [now apply IH |]. constructor; [reflexivity | now apply IH].
Qed.

(** Splitting at a character the string does not hold gives one piece. *)
Lemma splitChar_absent (sep : ascii) (s : string) : forall cur,
  Spec.allChars (fun c => negb (Ascii.eqb c sep)) s = true ->
  splitChar sep cur s = [cur ^^ s].
Proof.
  induction s as [| c r IH]; intros cur H; simpl.
  - now rewrite append_empty_r.
  - simpl in H. apply andb_prop in H as [Hc Hr].
    apply negb_true_iff in Hc. rewrite Hc, (IH _ Hr).
    now rewrite append_assoc.
Qed.

End Scanning.

(* ===================================================================== *)
(** ** More on the Schema Synthesizer *)
(* ===================================================================== *)

Section SchemaCases.
Import Js DumpVariant.

(** A field is required exactly when its parameter has no default the
    synthesizer can use (none, or the empty string) and is not a [star]
    parameter. *)
Theorem required_iff_no_usable_default
  (param : JustParameter) (recipeName : string) :
  Zod.isRequired (createParameterSchema param recipeName) = true <->
  (default param = DefaultNull \/ default param = DefaultString EmptyString) /\
  kind param <> star.
Proof.
  unfold createParameterSchema.
  destruct (default param) as [| [| c s] | parts], (kind param);
    cbv; split; intros H; try discriminate; try (now intuition congruence).
  all: destruct H as ([H | H] & _); discriminate.
Qed.

(** What a parameter's node accepts: [undefined] when the field is not
    required, and otherwise exactly the values of the parameter's shape,
    the empty sequence excepted when the field is required. *)
Theorem accepts_iff_shaped
  (param : JustParameter) (recipeName : string) (v : value) :
  Zod.accepts (createParameterSchema param recipeName) v = true <->
  (v = VUndefined /\
   Zod.isRequired (createParameterSchema param recipeName) = false) \/
  (Spec.shaped (variadic (kind param)) v = true /\
   (Zod.isRequired (createParameterSchema param recipeName) = true ->
    v <> VArray [])).
Proof.
  unfold createParameterSchema.
  destruct (default param) as [| [| c s] | parts], (kind param);
    destruct v as [| | b | n | str | [| x xs] | fields];
    cbn -[forallb]; unfold Zod.isRequired, Zod.isOptional;
    cbn -[forallb]; rewrite ?andb_true_r;
    split; intros H;
    repeat match goal with
           | H : _ \/ _ |- _ => destruct H
           | H : _ /\ _ |- _ => destruct H
           end;
    try discriminate; try congruence; try tauto;
    try (right; split; [assumption | discriminate]);
    try (right; split; [assumption | congruence]);
    try (left; split; reflexivity).
Qed.

(** Every node carries a description, and it is not empty. *)
Theorem schema_always_described
  (param : JustParameter) (recipeName : string) :
  exists d, Zod.description (createParameterSchema param recipeName) = Some d /\
            d <> EmptyString.
Proof.
  unfold createParameterSchema.
  destruct (default param) as [| [| c s] | parts], (kind param);
    simpl; eexists; (split; [reflexivity | discriminate]).
Qed.

End SchemaCases.

(* ===================================================================== *)
(** ** More on the Argument Marshaller *)
(* ===================================================================== *)

Section MarshallerLaws.
Import Js.

(** A turn of either loop appends to [args] what it would push on the
    empty list. *)
Lemma dump_pushEntry_app parameters args e :
  DumpVariant.pushEntry parameters args e =
  args ++ DumpVariant.pushEntry parameters [] e.
Proof.
  unfold DumpVariant.pushEntry. destruct e as [k v].
  destruct (DumpVariant.findParameter parameters k) as [p |];
    [| now rewrite app_nil_r].
  destruct (DumpVariant.variadic (DumpVariant.kind p) && isArray v);
    [reflexivity |].
  destruct (isString v); [reflexivity | now rewrite app_nil_r].
Qed.

Lemma list_pushEntry_app parameters args e :
  ListVariant.pushEntry parameters args e =
  args ++ ListVariant.pushEntry parameters [] e.
Proof.
  unfold ListVariant.pushEntry. destruct e as [k v].
  destruct (ListVariant.isVarArgs_opt _ && isArray v); [reflexivity |].
  destruct (isString v); [reflexivity | now rewrite app_nil_r].
Qed.

Lemma dump_loop_app parameters (o : entries) : forall args,
  fold_left (DumpVariant.pushEntry parameters) o args =
  args ++ fold_left (DumpVariant.pushEntry parameters) o [].
Proof.
  induction o as [| e o IH]; intros args; cbn [fold_left].
  - now rewrite app_nil_r.
  - rewrite IH, (IH (DumpVariant.pushEntry parameters [] e)).
    now rewrite dump_pushEntry_app, app_assoc.
Qed.

Lemma list_loop_app parameters (o : entries) : forall args,
  fold_left (ListVariant.pushEntry parameters) o args =
  args ++ fold_left (ListVariant.pushEntry parameters) o [].
Proof.
  induction o as [| e o IH]; intros args; cbn [fold_left].
  - now rewrite app_nil_r.
  - rewrite IH, (IH (ListVariant.pushEntry parameters [] e)).
    now rewrite list_pushEntry_app, app_assoc.
Qed.

(** Marshalling a map made of two parts, one after the other, gives the
    arguments of the first part followed by those of the second, in either
    variant. *)
Theorem marshalling_distributes_over_append (o1 o2 : entries) :
  (forall parameters,
     DumpVariant.processParameters (Some (o1 ++ o2)) parameters =
     DumpVariant.processParameters (Some o1) parameters ++
     DumpVariant.processParameters (Some o2) parameters) /\
  (forall parameters,
     ListVariant.processParameters (o1 ++ o2) parameters =
     ListVariant.processParameters o1 parameters ++
     ListVariant.processParameters o2 parameters).
Proof.
  split; intros parameters.
  - unfold DumpVariant.processParameters.
    now rewrite fold_left_app, dump_loop_app.
  - unfold ListVariant.processParameters.
    now rewrite fold_left_app, list_loop_app.
Qed.

(** The loop of the structured-dump variant passes over the entries whose
    key names no declared parameter. *)
Lemma dump_loop_skips_undeclared
  (parameters : list DumpVariant.JustParameter) (o : entries) : forall args,
  fold_left (DumpVariant.pushEntry parameters) o args =
  fold_left (DumpVariant.pushEntry parameters)
            (filter (Spec.declaredKey parameters) o) args.
Proof.
  induction o as [| [k v] o IH]; intros args; [reflexivity |].
  cbn [fold_left filter]. unfold Spec.declaredKey at 1. cbn [fst].
  destruct (DumpVariant.findParameter parameters k) as [p |] eqn:Hk.
  - cbn [fold_left]. apply IH.
  - rewrite dump_unknown_key_skipped by exact Hk. apply IH.
Qed.

(** The structured-dump marshaller sees only the entries whose key names a
    declared parameter: removing all the others from the map, whatever
    they hold, gives the same arguments. *)
Theorem dump_marshaller_ignores_undeclared_keys
  (parameters : list DumpVariant.JustParameter) (o : entries) :
  DumpVariant.processParameters (Some o) parameters =
  DumpVariant.processParameters
    (Some (filter (Spec.declaredKey parameters) o)) parameters.
Proof. exact (dump_loop_skips_undeclared parameters o []). Qed.

(** Neither marshaller makes an argument up: every argument it returns is a
    string of the map or an element of a sequence of the map. *)
Theorem marshalled_arguments_come_from_the_map (o : entries) (x : value) :
  (forall parameters,
     In x (DumpVariant.processParameters (Some o) parameters) ->
     exists k v, In (k, v) o /\ In x (Spec.contribution v)) /\
  (forall parameters,
     In x (ListVariant.processParameters o parameters) ->
     exists k v, In (k, v) o /\ In x (Spec.contribution v)).
Proof.
  split; intros parameters.
  - unfold DumpVariant.processParameters.
    induction o as [| [k v] o IH]; [intros [] |].
    cbn [fold_left]. rewrite dump_loop_app. intros H.
    apply in_app_or in H as [H | H].
    + exists k, v. split; [now left |].
      unfold DumpVariant.pushEntry in H.
      destruct (DumpVariant.findParameter parameters k) as [p |]; [| easy].
      destruct v; cbn in H;
        destruct (DumpVariant.variadic (DumpVariant.kind p)); cbn in H;
        easy.
    + destruct (IH H) as (k' & v' & Hin & Hx). exists k', v'.
      split; [now right | exact Hx].
  - unfold ListVariant.processParameters.
    induction o as [| [k v] o IH]; [intros [] |].
    cbn [fold_left]. rewrite list_loop_app. intros H.
    apply in_app_or in H as [H | H].
    + exists k, v. split; [now left |].
      unfold ListVariant.pushEntry in H.
      destruct v; cbn in H;
        destruct (ListVariant.isVarArgs_opt _); cbn in H; easy.
    + destruct (IH H) as (k' & v' & Hin & Hx). exists k', v'.
      split; [now right | exact Hx].
Qed.

(** The provenance of the argument [b] of a two-entry map. *)
Lemma marshalled_arguments_witness :
  let o := [("ARGS", VArray [VString "a"; VString "b"]); ("arg", VString "x")] in
  exists k v, In (k, v) o /\ In (VString "b") (Spec.contribution v).
Proof.
  intros o.
  refine (proj2 (marshalled_arguments_come_from_the_map o (VString "b"))
            [ListVariant.mkTaskParameter "ARGS" true] _).
  right. left. reflexivity.
Defined.

(** A value under a key read by [get] is the value of the entry when keys
    are distinct. *)
Lemma get_of_entry (o : entries) (k : string) (v : value) :
  NoDup (map fst o) -> In (k, v) o -> get o k = v.
Proof.
  induction o as [| [k' v'] o IH]; simpl; intros Hnd Hin; [easy |].
  inversion Hnd as [| ? ? Hk' Hnd']; subst.
  destruct Hin as [[= -> ->] | Hin].
  - now rewrite String.eqb_refl.
  - destruct (String.eqb_spec k' k) as [-> | _]; [| now apply IH].
    exfalso. apply Hk'. now apply (in_map fst) in Hin.
Qed.

(** The declared entries of a map the object schema accepts have the
    shapes of their parameters. *)
Lemma accepted_map_is_wellShaped
  (recipeName : string) (recipe : DumpVariant.JustRecipe) (o : entries) :
  NoDup (map fst o) ->
  (forall k, ~ In (k, VUndefined) o) ->
  Zod.object_accepts (DumpVariant.parametersSchema recipeName recipe) o = true ->
  Spec.wellShapedDump (DumpVariant.parameters recipe)
    (filter (Spec.declaredKey (DumpVariant.parameters recipe)) o) = true.
Proof.
  intros Hnd Hdef Hacc.
  unfold Spec.wellShapedDump. apply forallb_forall. intros [k v] Hin.
  apply filter_In in Hin as [Hin Hdecl]. unfold Spec.declaredKey in Hdecl.
  cbn [fst snd] in *.
  destruct (DumpVariant.findParameter (DumpVariant.parameters recipe) k)
    as [p |] eqn:Hp; [| discriminate].
  apply find_some in Hp as [Hp Hname].
  apply String.eqb_eq in Hname. subst k.
  unfold Zod.object_accepts, DumpVariant.parametersSchema in Hacc.
  rewrite forallb_forall in Hacc.
  specialize (Hacc _ (in_map _ _ _ Hp)). cbn [fst snd] in Hacc.
  rewrite (get_of_entry _ _ _ Hnd Hin) in Hacc.
  apply accepted_is_shaped in Hacc as [-> | Hs]; [| exact Hs].
  now elim (Hdef (DumpVariant.name p)).
Qed.

(** Hence such a map marshals to the flattened values of its declared
    entries. *)
Lemma accepted_map_marshalled
  (recipeName : string) (recipe : DumpVariant.JustRecipe) (o : entries) :
  NoDup (map fst o) ->
  (forall k, ~ In (k, VUndefined) o) ->
  Zod.object_accepts (DumpVariant.parametersSchema recipeName recipe) o = true ->
  DumpVariant.processParameters (Some o) (DumpVariant.parameters recipe) =
  Spec.flattened (filter (Spec.declaredKey (DumpVariant.parameters recipe)) o).
Proof.
  intros Hnd Hdef Hacc. unfold DumpVariant.processParameters.
  rewrite dump_loop_skips_undeclared.
  apply (dump_loop_flattens _ _ []).
  exact (accepted_map_is_wellShaped recipeName recipe o Hnd Hdef Hacc).
Qed.

(** Round trip through the schema: for a recipe whose parameters have
    distinct names (so that the object schema holds one node per
    parameter), a map with distinct keys and no [undefined] value that the
    object schema accepts marshals to the values of its declared keys,
    flattened in the map's own key order. *)
Theorem accepted_map_marshals_to_flattened_values
  (recipeName : string) (recipe : DumpVariant.JustRecipe) (o : entries) :
  NoDup (map DumpVariant.name (DumpVariant.parameters recipe)) ->
  NoDup (map fst o) ->
  (forall k, ~ In (k, VUndefined) o) ->
  Zod.object_accepts (DumpVariant.parametersSchema recipeName recipe) o = true ->
  DumpVariant.processParameters (Some o) (DumpVariant.parameters recipe) =
  Spec.flattened (filter (Spec.declaredKey (DumpVariant.parameters recipe)) o).
Proof.
  intros _ Hnd Hdef Hacc.
  exact (accepted_map_marshalled recipeName recipe o Hnd Hdef Hacc).
Qed.

(** The round trip at the recipe [test_multiple_args] of the project's
    Justfile, called with its keys in reverse order and a stray key. *)
Lemma accepted_map_marshals_witness :
  let recipe :=
    DumpVariant.mkRecipe "test_multiple_args"
      [DumpVariant.mkParameter "first" DumpVariant.singular
                               DumpVariant.DefaultNull false;
       DumpVariant.mkParameter "second" DumpVariant.singular
                               (DumpVariant.DefaultString "second_default")
                               false]
      (Some "4. Recipe with multiple parameters") [] [] false false false in
  let o := [("second", VString "b"); ("stray", VNumber 1);
            ("first", VString "a")] in
  DumpVariant.processParameters (Some o) (DumpVariant.parameters recipe) =
  [VString "b"; VString "a"].
Proof.
  intros recipe o.
  refine (accepted_map_marshals_to_flattened_values
            "test_multiple_args" recipe o _ _ _ eq_refl).
  - repeat constructor; simpl; intuition discriminate.
  - repeat constructor; simpl; intuition discriminate.
  - intros k H. simpl in H. intuition discriminate.
Defined.

(** A parameter list read as the text-listing variant would hold it. *)
Lemma find_asTaskParameter parameters k :
  ListVariant.findParameter (map Spec.asTaskParameter parameters) k =
  option_map Spec.asTaskParameter (DumpVariant.findParameter parameters k).
Proof.
  unfold ListVariant.findParameter, DumpVariant.findParameter.
  induction parameters as [| p ps IH]; simpl; [reflexivity |].
  destruct (String.eqb (DumpVariant.name p) k); [reflexivity | exact IH].
Qed.

(** On a map whose keys all name declared parameters the two marshallers
    agree, whatever the values. *)
Theorem marshallers_agree_on_declared_keys
  (parameters : list DumpVariant.JustParameter) (o : entries) :
  forallb (Spec.declaredKey parameters) o = true ->
  ListVariant.processParameters o (map Spec.asTaskParameter parameters) =
  DumpVariant.processParameters (Some o) parameters.
Proof.
  unfold ListVariant.processParameters, DumpVariant.processParameters.
  generalize (@nil value) as args.
  induction o as [| [k v] o IH]; intros args H; [reflexivity |].
  cbn [forallb] in H. apply andb_prop in H as [Hk Ho].
  cbn [fold_left]. rewrite <- (IH _ Ho). f_equal.
  unfold ListVariant.pushEntry, DumpVariant.pushEntry.
  rewrite find_asTaskParameter.
  unfold Spec.declaredKey in Hk. cbn [fst] in Hk.
  now destruct (DumpVariant.findParameter parameters k).
Qed.

(** The agreement at a map with a value of the wrong shape. *)
Lemma marshallers_agree_witness :
  let declared :=
    [DumpVariant.mkParameter "arg" DumpVariant.singular
                             DumpVariant.DefaultNull false;
     DumpVariant.mkParameter "ARGS" DumpVariant.star
                             DumpVariant.DefaultNull false] in
  let o := [("arg", VArray [VString "dropped"]);
            ("ARGS", VArray [VString "a"; VNumber 2])] in
  ListVariant.processParameters o (map Spec.asTaskParameter declared) =
  DumpVariant.processParameters (Some o) declared.
Proof.
  intros declared o.
  exact (marshallers_agree_on_declared_keys declared o eq_refl).
Defined.

End MarshallerLaws.

(* ===================================================================== *)
(** ** The object schema of the text-listing variant *)
(* ===================================================================== *)

Section ListSchema.
Import Js ListVariant.

Lemma assign_keys (o : Zod.object) k s k' :
  In k' (map fst (assign o k s)) <-> In k' (map fst o) \/ k' = k.
Proof.
  induction o as [| [k0 s0] o IH]; simpl.
  - intuition.
  - destruct (String.eqb_spec k0 k) as [-> | Hne]; simpl; [intuition |].
    rewrite IH. intuition.
Qed.

Lemma assign_NoDup (o : Zod.object) k s :
  NoDup (map fst o) -> NoDup (map fst (assign o k s)).
Proof.
  induction o as [| [k0 s0] o IH]; simpl; intros Hnd.
  - repeat constructor. easy.
  - inversion Hnd as [| ? ? Hk0 Hnd']; subst.
    destruct (String.eqb_spec k0 k) as [-> | Hne]; simpl.
    + now constructor.
    + constructor; [| now apply IH].
      rewrite assign_keys. intros [H | H]; [now apply Hk0 | congruence].
Qed.

Lemma assign_nodes (o : Zod.object) k s k' s' :
  In (k', s') (assign o k s) -> In (k', s') o \/ (k' = k /\ s' = s).
Proof.
  induction o as [| [k0 s0] o IH]; simpl.
  - intros [[= <- <-] | []]. now right.
  - destruct (String.eqb_spec k0 k) as [-> | Hne]; simpl.
    + intros [[= <- <-] | H]; [now right | now left; right].
    + intros [H | H]; [now left; left |].
      apply IH in H as [H | H]; [now left; right | now right].
Qed.

(** What the loop building [paramSchema] keeps true. *)
Lemma paramSchema_loop taskName (params : list TaskParameter) :
  forall o : Zod.object,
  let o' := fold_left
              (fun o param =>
                 assign o (name param) (parameterSchema taskName param))
              params o in
  (NoDup (map fst o) -> NoDup (map fst o')) /\
  (forall k, In k (map fst o') <->
             In k (map fst o) \/ In k (map name params)) /\
  (forall k s, In (k, s) o' ->
     In (k, s) o \/
     exists p, In p params /\ name p = k /\ s = parameterSchema taskName p).
Proof.
  induction params as [| p ps IH]; intros o; cbn [fold_left].
  - repeat split; try tauto. simpl. tauto.
  - specialize (IH (assign o (name p) (parameterSchema taskName p))).
    cbv zeta in IH. destruct IH as (Hnd & Hkeys & Hnodes).
    split; [| split].
    + intros H. now apply Hnd, assign_NoDup.
    + intros k. rewrite Hkeys, assign_keys. simpl. intuition.
    + intros k s H. apply Hnodes in H as [H | (q & Hq & Hk & Hs)].
      * apply assign_nodes in H as [H | [-> ->]]; [now left |].
        right. exists p. repeat split. now left.
      * right. exists q. repeat split; [now right | exact Hk | exact Hs].
Qed.

Lemma nodeAt_assign (o : Zod.object) k s k' :
  Spec.nodeAt (assign o k s) k' =
  if String.eqb k k' then Some s else Spec.nodeAt o k'.
Proof.
  unfold Spec.nodeAt.
  induction o as [| [k0 s0] o IH]; simpl.
  - now destruct (String.eqb k k').
  - destruct (String.eqb_spec k0 k) as [-> | Hne]; simpl.
    + now destruct (String.eqb k k').
    + destruct (String.eqb_spec k0 k') as [-> | Hne']; simpl.
      * destruct (String.eqb_spec k k') as [-> | _]; [congruence | reflexivity].
      * exact IH.
Qed.

Lemma find_snoc {A : Type} (f : A -> bool) (l : list A) (x : A) :
  find f (l ++ [x]) =
  match find f l with
  | Some y => Some y
  | None => if f x then Some x else None
  end.
Proof.
  induction l as [| y l IH]; simpl; [reflexivity |].
  now destruct (f y).
Qed.

(** The node the loop building [paramSchema] leaves under a key: that of
    the last parameter bearing the key, or the one that was there. *)
Lemma paramSchema_loop_node taskName (params : list TaskParameter) k :
  forall o : Zod.object,
  Spec.nodeAt
    (fold_left
       (fun o param => assign o (name param) (parameterSchema taskName param))
       params o) k =
  match Spec.lastNamed params k with
  | Some p => Some (parameterSchema taskName p)
  | None => Spec.nodeAt o k
  end.
Proof.
  unfold Spec.lastNamed.
  induction params as [| p ps IH]; intros o; cbn [fold_left rev].
  - reflexivity.
  - rewrite IH, find_snoc, nodeAt_assign.
    destruct (find _ (rev ps)); [reflexivity |].
    now destruct (String.eqb (name p) k).
Qed.

(** The object schema of a task has one key per parameter name: its keys
    are distinct and are exactly the names of the task's parameters; and
    when several parameters share a name, the node kept under it is the one
    of the last of them, each assignment replacing the node before. *)
Theorem paramSchema_holds_the_last_node_per_name (task : Task) :
  NoDup (map fst (paramSchema task)) /\
  (forall k, In k (map fst (paramSchema task)) <->
             In k (map name (parameters task))) /\
  (forall k, Spec.nodeAt (paramSchema task) k =
             option_map (parameterSchema (task_name task))
                        (Spec.lastNamed (parameters task) k)).
Proof.
  unfold paramSchema.
  destruct (paramSchema_loop (task_name task) (parameters task) [])
    as (Hnd & Hkeys & _).
  split; [apply Hnd; constructor | split].
  - intros k. rewrite Hkeys. simpl. tauto.
  - intros k. rewrite paramSchema_loop_node.
    now destruct (Spec.lastNamed (parameters task) k).
Qed.

(** In the text-listing variant no field is optional: a map the object
    schema accepts holds, for every parameter of the task, variadic ones
    included, a string or a sequence of strings. *)
Theorem list_schema_requires_every_parameter (task : Task) (o : entries) :
  Zod.object_accepts (paramSchema task) o = true ->
  forall p, In p (parameters task) ->
    get o (name p) <> VUndefined /\
    (Spec.shaped false (get o (name p)) = true \/
     Spec.shaped true (get o (name p)) = true).
Proof.
  intros Hacc p Hp.
  destruct (paramSchema_loop (task_name task) (parameters task) [])
    as (_ & Hkeys & Hnodes).
  fold (paramSchema task) in Hkeys, Hnodes.
  assert (Hk : In (name p) (map fst (paramSchema task))).
  { apply Hkeys. right. now apply in_map. }
  apply in_map_iff in Hk as ([k s] & Hks & Hin). cbn [fst] in Hks. subst k.
  unfold Zod.object_accepts in Hacc. rewrite forallb_forall in Hacc.
  specialize (Hacc _ Hin). cbn [fst snd] in Hacc.
  apply Hnodes in Hin as [[] | (q & _ & _ & ->)].
  unfold parameterSchema in Hacc.
  destruct (isVarArgs q); simpl in Hacc;
    destruct (get o (name p)); try discriminate;
    (split; [discriminate | simpl; auto]).
Qed.

(** The requirement at the task [test *test_files] called with no value:
    the map is turned down, so the hypothesis is met with the sequence
    given. *)
Lemma list_schema_requires_witness :
  let task := mkTask "test" "Run the test task"
                     [mkTaskParameter "test_files" true] in
  let o := [("test_files", VArray [])] in
  Zod.object_accepts (paramSchema task) [] = false /\
  get o "test_files" <> VUndefined.
Proof.
  intros task o. split; [reflexivity |].
  exact (proj1 (list_schema_requires_every_parameter task o eq_refl
                  (mkTaskParameter "test_files" true) (or_introl eq_refl))).
Defined.

End ListSchema.

(* ===================================================================== *)
(** ** Reading the listing *)
(* ===================================================================== *)

Section Listing.
Import Js ListVariant.

(** The name a line matches with, when it matches. *)
Lemma matchLine_name (line : string) :
  matchLine line =
  match fst (span isWordChar (trimStart line)) with
  | EmptyString => None
  | n =>
      match matchLine line with
      | Some (_, a, c) => Some (n, a, c)
      | None => None
      end
  end /\
  (fst (span isWordChar (trimStart line)) <> EmptyString ->
   matchLine line <> None).
Proof.
  unfold matchLine.
  destruct (span isWordChar (trimStart line)) as [n rest]. cbn [fst].
  destruct n as [| c n]; [split; [reflexivity | congruence] |].
  destruct (span isWhiteSpace rest) as [spaces afterSpaces].
  destruct spaces as [| c' spaces].
  - split; [reflexivity | discriminate].
  - destruct (span _ afterSpaces). split; [reflexivity | discriminate].
Qed.

(** The name of a matched line is a run of word characters, not empty. *)
Lemma matchLine_wordName (line : string) n a c :
  matchLine line = Some (n, a, c) ->
  Spec.wordName n = true /\ n = fst (span isWordChar (trimStart line)).
Proof.
  intros Hm. destruct (matchLine_name line) as [Heq _].
  pose proof (span_spec isWordChar (trimStart line)) as Hspan.
  destruct (span isWordChar (trimStart line)) as [w rest].
  cbn [fst] in *. destruct Hspan as (_ & Hword & _).
  rewrite Hm in Heq. destruct w as [| c0 w]; [discriminate |].
  injection Heq as ->.
  split; [| reflexivity]. unfold Spec.wordName. now rewrite Hword.
Qed.

(** A line gives a task exactly when its first character after leading
    white space is a word character; the task name is then the longest run
    of word characters there, so it is never empty and holds nothing but
    letters, digits and underscores. *)
Theorem matchLine_takes_a_word_name (line : string) :
  (matchLine line = None <->
   match trimStart line with
   | EmptyString => True
   | String c _ => isWordChar c = false
   end) /\
  (forall n a c, matchLine line = Some (n, a, c) ->
     Spec.wordName n = true /\
     n = fst (span isWordChar (trimStart line))).
Proof.
  destruct (matchLine_name line) as [Heq Hsome].
  pose proof (span_spec isWordChar (trimStart line)) as Hspan.
  destruct (span isWordChar (trimStart line)) as [w rest] eqn:Hw.
  cbn [fst] in *. destruct Hspan as (Hline & Hword & Hrest).
  split.
  - split.
    + intros Hnone. destruct w as [| c w].
      * simpl in Hline. rewrite Hline. exact Hrest.
      * now elim Hsome.
    + intros H. destruct w as [| c w]; [now rewrite Heq |].
      rewrite Hline in H. simpl in H, Hword.
      apply andb_prop in Hword as [Hc _]. congruence.
  - intros n a c Hm.
    destruct (matchLine_wordName line n a c Hm) as [H1 H2].
    rewrite Hw in H2. now split.
Qed.

(** The naming at the listing line of a recipe whose name has a hyphen:
    the name stops at the hyphen. *)
Lemma matchLine_witness :
  matchLine "    drop-db" = Some ("drop", None, None) /\
  Spec.wordName "drop" = true.
Proof.
  split; [reflexivity |].
  exact (proj1 (proj2 (matchLine_takes_a_word_name "    drop-db")
                  "drop" None None eq_refl)).
Defined.

(** The non-empty pieces of a split at white space are the words. *)
Lemma splitSpaces_words (s : string) : forall inSep cur,
  Spec.spaceFree cur = true ->
  (inSep = true -> cur = EmptyString) ->
  filter (fun p => truthy_string (trim p)) (splitSpaces inSep cur s) =
  Spec.wordsFrom cur s.
Proof.
  induction s as [| c r IH]; intros inSep cur Hcur Hsep; simpl.
  - rewrite (trim_spaceFree _ Hcur). now destruct cur.
  - destruct (isWhiteSpace c) eqn:Hc.
    + destruct inSep.
      * rewrite (Hsep eq_refl). now apply IH.
      * cbn [filter]. rewrite (trim_spaceFree _ Hcur).
        rewrite (IH true EmptyString eq_refl (fun _ => eq_refl)).
        now destruct cur.
    + apply IH; [| discriminate].
      unfold Spec.spaceFree. rewrite allChars_app. simpl.
      fold (Spec.spaceFree cur). now rewrite Hcur, Hc.
Qed.

(** Leading white space holds no word. *)
Lemma words_trimStart (s : string) :
  Spec.wordsFrom EmptyString (trimStart s) = Spec.wordsFrom EmptyString s.
Proof.
  unfold trimStart.
  induction s as [| c r IH]; simpl; [reflexivity |].
  destruct (isWhiteSpace c) eqn:Hc.
  - destruct (span isWhiteSpace r) as [a b]. exact IH.
  - simpl. now rewrite Hc.
Qed.

(** Neither does trailing white space. *)
Lemma words_trimEnd (s : string) : forall cur,
  Spec.wordsFrom cur (trimEnd s) = Spec.wordsFrom cur s.
Proof.
  induction s as [| c r IH]; intros cur; [reflexivity |].
  cbn [trimEnd]. destruct (trimEnd r) as [| c' r'] eqn:Hr.
  - destruct (isWhiteSpace c) eqn:Hc; simpl; rewrite Hc.
    + rewrite <- IH. now destruct cur.
    + now rewrite <- IH.
  - simpl. destruct (isWhiteSpace c); [| apply IH].
    rewrite <- IH. reflexivity.
Qed.

(** Words are not empty and hold no white space. *)
Lemma wordsFrom_wellFormed (s : string) : forall cur,
  Spec.spaceFree cur = true ->
  Forall (fun tok => tok <> EmptyString /\ Spec.spaceFree tok = true)
         (Spec.wordsFrom cur s).
Proof.
  induction s as [| c r IH]; intros cur Hcur; simpl.
  - destruct cur; constructor; [split; [discriminate | exact Hcur] | constructor].
  - destruct (isWhiteSpace c) eqn:Hc.
    + destruct cur; [now apply IH |].
      constructor; [split; [discriminate | exact Hcur] | now apply IH].
    + apply IH. unfold Spec.spaceFree. rewrite allChars_app. simpl.
      fold (Spec.spaceFree cur). now rewrite Hcur, Hc.
Qed.

(** The parameters of an argument string are read off its words, one
    parameter per word and in the same order: the maximal runs of
    characters other than white space, each not empty; the name of a
    parameter is its word less one leading [$] or [*], and the parameter is
    variadic exactly when the word starts with [*]. *)
Theorem parseParams_reads_tokens (argsStr : string) :
  parseParams argsStr = map Spec.tokenParameter (Spec.words argsStr) /\
  Forall (fun tok => tok <> EmptyString /\ Spec.spaceFree tok = true)
         (Spec.words argsStr) /\
  (forall tok, isVarArgs (Spec.tokenParameter tok) = startsWith tok "*"%char).
Proof.
  split; [| split].
  - unfold parseParams, Spec.words.
    rewrite (splitSpaces_words _ false EmptyString eq_refl);
      [| discriminate].
    unfold trim. now rewrite words_trimEnd, words_trimStart.
  - now apply wordsFrom_wellFormed.
  - reflexivity.
Qed.

(** The reading at the arguments of a recipe with an environment-bound
    parameter and one marked [+]: two words, the mark [+] stays in the name
    and the parameter is not variadic. *)
Lemma parseParams_witness :
  Spec.words "  $arg   +ARGS " = ["$arg"; "+ARGS"] /\
  parseParams "  $arg   +ARGS " =
    [mkTaskParameter "arg" false; mkTaskParameter "+ARGS" false].
Proof.
  split; [reflexivity |].
  exact (proj1 (parseParams_reads_tokens "  $arg   +ARGS ")).
Defined.

(** A blank argument string declares no parameter. *)
Theorem parseParams_blank (argsStr : string) :
  Spec.blank argsStr = true -> parseParams argsStr = [].
Proof.
  intros H. unfold parseParams. now rewrite (trim_blank _ H).
Qed.

Lemma parseParams_blank_witness :
  parseParams "   " = [].
Proof. exact (parseParams_blank "   " eq_refl). Defined.

(** Every task read off a listing bears a word name the filter let
    through. *)
Lemma parsed_task_name
  (ALLOWED_TASKS : option (list string)) (taskList : string) (t : Task) :
  In t (parseTaskList ALLOWED_TASKS taskList) ->
  Spec.wordName (task_name t) = true /\
  filteredOut ALLOWED_TASKS (task_name t) = false /\
  exists c, description t = taskDescription (task_name t) (orEmpty c).
Proof.
  unfold parseTaskList. intros H.
  apply list_parsed in H as [[] | (l & n & a & c & _ & Hm & Hf & ->)].
  cbn [task_name description]. repeat split.
  - exact (proj1 (matchLine_wordName l n a c Hm)).
  - exact Hf.
  - now exists c.
Qed.

(** Every task read off a listing has a name of word characters, passes
    the allow-list when there is one, and has a description that is not
    empty. *)
Theorem parsed_tasks_are_named_allowed_and_described
  (ALLOWED_TASKS : option (list string)) (taskList : string) (t : Task) :
  In t (parseTaskList ALLOWED_TASKS taskList) ->
  Spec.wordName (task_name t) = true /\
  (forall allowed, ALLOWED_TASKS = Some allowed -> In (task_name t) allowed) /\
  description t <> EmptyString.
Proof.
  intros H. apply parsed_task_name in H as (Hname & Hf & c & Hd).
  repeat split.
  - exact Hname.
  - intros allowed ->. unfold filteredOut in Hf.
    apply negb_false_iff, existsb_exists in Hf as (x & Hx & Heq).
    apply String.eqb_eq in Heq. now subst x.
  - rewrite Hd. unfold taskDescription.
    destruct (trim (orEmpty c)) as [| c0 r]; simpl; discriminate.
Qed.

(** The three facts at a listing of two recipes, one of them allowed. *)
Lemma parsed_tasks_witness :
  let t := mkTask "build" "Build the project." [] in
  Spec.wordName (task_name t) = true /\
  (forall allowed, Some ["build"] = Some allowed -> In (task_name t) allowed) /\
  description t <> EmptyString.
Proof.
  intros t.
  refine (parsed_tasks_are_named_allowed_and_described
            (Some ["build"])
            ("    build # Build the project." ^^ lf ^^ "    deploy target")
            t _).
  left. reflexivity.
Defined.

End Listing.

(* ===================================================================== *)
(** ** Start-up: environment, allow-list, registration *)
(* ===================================================================== *)

Section StartUp.
Import Js.

Variable host : Host.
Variable PROJECT : string.

(** The names the registration loop of the structured-dump variant adds. *)
Lemma dump_registered_names Deno_args show allowed
  (recipes : DumpVariant.Recipes) : forall tools,
  map DumpVariant.tool_name
    (fold_left
       (fun tools entry =>
          let (recipeName, recipe) :=
            entry : string * DumpVariant.JustRecipe in
          if DumpVariant.filteredOut allowed recipeName then tools
          else if show : bool then tools
          else tools ++ [DumpVariant.recipeTool host PROJECT Deno_args
                           recipeName recipe])
       recipes tools) =
  map DumpVariant.tool_name tools ++
  (if show then []
   else filter (fun n => negb (DumpVariant.filteredOut allowed n))
               (map fst recipes)).
Proof.
  induction recipes as [| [n r] recipes IH]; intros tools; cbn [fold_left].
  - destruct show; now rewrite app_nil_r.
  - rewrite IH. cbn [map fst filter].
    destruct (DumpVariant.filteredOut allowed n); [reflexivity |].
    destruct show; [reflexivity |].
    rewrite map_app, <- app_assoc. reflexivity.
Qed.

(** The tools registered by the structured-dump variant are, by name and
    in order: the diagnostic tool when enabled, then the recipes of the
    dump that the allow-list lets through, in the dump's order; none of the
    recipes when the schemas are only shown. *)
Theorem dump_registered_tool_names
  (Deno_args : list string) (debug show : bool)
  (allowed : option (list string)) (recipes : DumpVariant.Recipes) :
  map DumpVariant.tool_name
    (DumpVariant.registerTools host PROJECT Deno_args debug show allowed
       recipes) =
  (if debug then ["cwd"] else []) ++
  (if show then []
   else filter (fun n => match allowed with
                         | Some names => existsb (String.eqb n) names
                         | None => true
                         end)
               (map fst recipes)).
Proof.
  unfold DumpVariant.registerTools. rewrite dump_registered_names.
  f_equal; [now destruct debug |].
  destruct show; [reflexivity |]. apply filter_ext. intros n.
  unfold DumpVariant.filteredOut. destruct allowed; [| reflexivity].
  now rewrite negb_involutive.
Qed.

(** How the structured-dump variant starts: it exits with status 1 exactly
    when the dump cannot be run or parsed, whatever the flags; it exits
    with status 0 when the dump is read and [SHOW_RECIPES] is set; and it
    serves otherwise. *)
Theorem dump_startup_outcome
  (Deno_args : list string)
  (ALLOWED_RECIPES ENABLE_DEBUG_TOOL SHOW_RECIPES : option string)
  (run : Command -> thrown + string)
  (parse : string -> thrown + DumpVariant.Recipes) :
  let outcome :=
    DumpVariant.startup host PROJECT Deno_args ALLOWED_RECIPES
      ENABLE_DEBUG_TOOL SHOW_RECIPES run parse in
  let dumped :=
    exists out recipes,
      run (DumpVariant.dumpCommand PROJECT Deno_args) = inr out /\
      parse out = inr recipes in
  (outcome = DumpVariant.Exited 1 <-> ~ dumped) /\
  (outcome = DumpVariant.Exited 0 <->
   dumped /\ DumpVariant.flagSet SHOW_RECIPES = true) /\
  ((exists tools, outcome = DumpVariant.Serving tools) <->
   dumped /\ DumpVariant.flagSet SHOW_RECIPES = false).
Proof.
  intros outcome dumped. subst outcome dumped.
  unfold DumpVariant.startup, DumpVariant.getJustRecipes.
  cbn [bind Monad_either].
  destruct (run (DumpVariant.dumpCommand PROJECT Deno_args)) as [e | out].
  - assert (Hno : ~ exists out recipes,
               @inl thrown string e = inr out /\ parse out = inr recipes)
      by (intros (? & ? & H & _); discriminate H).
    repeat split; intros;
      repeat match goal with
             | H : exists _, _ |- _ => destruct H
             | H : _ /\ _ |- _ => destruct H
             end; try tauto; congruence.
  - destruct (parse out) as [e | recipes] eqn:Hparse.
    + assert (Hno : ~ exists out' recipes,
                 @inr thrown string out = inr out' /\
                 parse out' = inr recipes)
        by (intros (? & ? & [= <-] & H); congruence).
      repeat split; intros;
        repeat match goal with
               | H : exists _, _ |- _ => destruct H
               | H : _ /\ _ |- _ => destruct H
               end; try tauto; congruence.
    + assert (Hyes : exists out' recipes',
                 @inr thrown string out = inr out' /\
                 parse out' = inr recipes')
        by (now exists out, recipes).
      destruct (DumpVariant.flagSet SHOW_RECIPES); repeat split; intros;
        repeat match goal with
               | H : (exists _ : list DumpVariant.Tool, _) |- _ => destruct H
               | H : _ /\ _ |- _ => destruct H
               end; try tauto; try congruence; now eexists.
Qed.

(** A blank [ALLOWED_RECIPES] counts as none: the structured-dump variant
    then starts as it does with the variable unset, every recipe
    exposed. *)
Theorem blank_allowed_recipes_is_unset
  (Deno_args : list string) (value : string)
  (ENABLE_DEBUG_TOOL SHOW_RECIPES : option string)
  (run : Command -> thrown + string)
  (parse : string -> thrown + DumpVariant.Recipes) :
  Spec.blank value = true ->
  DumpVariant.allowedRecipes (Some value) = None /\
  DumpVariant.startup host PROJECT Deno_args (Some value)
    ENABLE_DEBUG_TOOL SHOW_RECIPES run parse =
  DumpVariant.startup host PROJECT Deno_args None
    ENABLE_DEBUG_TOOL SHOW_RECIPES run parse.
Proof.
  intros H.
  assert (Hnone : DumpVariant.allowedRecipes (Some value) = None).
  { unfold DumpVariant.allowedRecipes. now rewrite (trim_blank _ H). }
  split; [exact Hnone |]. unfold DumpVariant.startup. now rewrite Hnone.
Qed.

Lemma blank_has_no_comma (s : string) :
  Spec.blank s = true ->
  Spec.allChars (fun c => negb (Ascii.eqb c ","%char)) s = true.
Proof.
  induction s as [| c r IH]; simpl; [reflexivity |].
  unfold Spec.blank. simpl. intros H. apply andb_prop in H as [Hc Hr].
  rewrite (IH Hr), andb_true_r.
  destruct (Ascii.eqb_spec c ","%char) as [-> | _]; [discriminate | reflexivity].
Qed.

(** A blank [ALLOWED_TASKS] is a list holding the empty name, which no
    task bears: the text-listing variant then serves no task at all, only
    the diagnostic tool when enabled. *)
Theorem blank_allowed_tasks_hides_every_task
  (value : string) (ENABLE_DEBUG_TOOL : option string)
  (run : Command -> thrown + string) :
  Spec.blank value = true ->
  ListVariant.allowedTasks (Some value) = Some [EmptyString] /\
  ListVariant.startup host PROJECT (Some value) ENABLE_DEBUG_TOOL run =
  if ListVariant.flagSet ENABLE_DEBUG_TOOL
  then [ListVariant.cwdTool PROJECT] else [].
Proof.
  intros H.
  assert (Hsome : ListVariant.allowedTasks (Some value) = Some [EmptyString]).
  { unfold ListVariant.allowedTasks.
    rewrite (splitChar_absent _ _ _ (blank_has_no_comma _ H)).
    cbn [map String.append]. now rewrite (trim_blank _ H). }
  split; [exact Hsome |].
  unfold ListVariant.startup, ListVariant.registerTools. rewrite Hsome.
  assert (Hnone : ListVariant.getJustTasks PROJECT run (Some [EmptyString])
                  = []).
  { destruct (ListVariant.getJustTasks PROJECT run (Some [EmptyString]))
      as [| t ts] eqn:Hts; [reflexivity |].
    assert (Hin : In t (ListVariant.getJustTasks PROJECT run
                          (Some [EmptyString]))) by (rewrite Hts; now left).
    unfold ListVariant.getJustTasks in Hin.
    destruct (run (ListVariant.listCommand PROJECT)) as [e | text];
      [destruct Hin |].
    apply parsed_task_name in Hin as (Hname & Hf & _).
    unfold ListVariant.filteredOut in Hf. cbn [existsb] in Hf.
    rewrite orb_false_r in Hf. apply negb_false_iff, String.eqb_eq in Hf.
    rewrite Hf in Hname. discriminate. }
  rewrite Hnone. cbn [map]. now rewrite app_nil_r.
Qed.

End StartUp.

Section StartUpWitnesses.
Import Js.

Lemma blank_allowed_recipes_witness :
  DumpVariant.allowedRecipes (Some "  ") = None.
Proof.
  exact (proj1 (blank_allowed_recipes_is_unset
                  (fun _ => inr (mkChild [] 0)) "/project" [] "  " None None
                  (fun _ => inr "{}") (fun _ => inr []) eq_refl)).
Defined.

Lemma blank_allowed_tasks_witness :
  ListVariant.startup (fun _ => inr (mkChild [] 0)) "/project"
    (Some EmptyString) None (fun _ => inr "    build") = [].
Proof.
  exact (proj2 (blank_allowed_tasks_hides_every_task
                  (fun _ => inr (mkChild [] 0)) "/project" EmptyString None
                  (fun _ => inr "    build") eq_refl)).
Defined.

End StartUpWitnesses.

(* ===================================================================== *)
(** ** More on the Recipe Executor *)
(* ===================================================================== *)

Section ExecutorLaws.
Import Js.

Lemma append_cancel_l (a x y : string) : a ^^ x = a ^^ y -> x = y.
Proof.
  induction a as [| c a IH]; simpl; [easy |].
  intros [= H]. now apply IH.
Qed.

(** The decimal text of an exit status reads back as the status. *)
Lemma number_reads_back (z : Z) :
  Spec.number_of_string (string_of_number z) = Some z.
Proof.
  unfold Spec.number_of_string, string_of_number.
  rewrite NilZero.isi.
  - simpl. now rewrite DecimalZ.of_to.
  - destruct z; simpl; try discriminate.
    intros [= H]. now apply Unsigned.to_uint_nonnil in H.
  - destruct z; simpl; try discriminate.
    intros [= H]. now apply Unsigned.to_uint_nonnil in H.
Qed.

(** The result of a recipe run tells the combined text and the exit
    status, and nothing else: two runs of the structured-dump executor
    whose pipes delivered the same text overall, in whatever chunks and
    through whichever pipe, return the same result exactly when their exit
    statuses are equal. *)
Theorem result_tells_status_not_pipes
  (host1 host2 : Host) (PROJECT : string) (Deno_args : list string)
  (name : string) (args : list value) (child1 child2 : Child) :
  host1 (DumpVariant.recipeCommand PROJECT Deno_args name args) = inr child1 ->
  host2 (DumpVariant.recipeCommand PROJECT Deno_args name args) = inr child2 ->
  Spec.combined (chunks child1) = Spec.combined (chunks child2) ->
  (DumpVariant.executeRecipe host1 PROJECT Deno_args name args =
   DumpVariant.executeRecipe host2 PROJECT Deno_args name args <->
   code child1 = code child2).
Proof.
  intros H1 H2 Hc. rewrite !executeRecipe_outcome, H1, H2.
  unfold Spec.toolResult, Spec.exitLine. rewrite Hc. split.
  - intros [= H]. apply append_cancel_l in H. injection H as H.
    assert (Hn : Spec.number_of_string (string_of_number (code child1)) =
                 Spec.number_of_string (string_of_number (code child2)))
      by now rewrite H.
    rewrite !number_reads_back in Hn. now injection Hn.
  - now intros ->.
Qed.

(** Two runs writing [ab] once to one pipe in one chunk, once to both
    pipes, with statuses 0 and 2: the results differ. *)
Lemma result_tells_status_witness :
  let one := mkChild [(stdout, "ab")] 0 in
  let two := mkChild [(stderr, "a"); (stdout, "b")] 2 in
  DumpVariant.executeRecipe (fun _ => inr one) "/project" [] "build" [] <>
  DumpVariant.executeRecipe (fun _ => inr two) "/project" [] "build" [].
Proof.
  intros one two H.
  apply (result_tells_status_not_pipes
           (fun _ => inr one) (fun _ => inr two) "/project" [] "build" []
           one two eq_refl eq_refl eq_refl) in H.
  discriminate H.
Defined.

End ExecutorLaws.

(* ===================================================================== *)
(** ** From the call to the spawn *)
(* ===================================================================== *)

Section CallToSpawn.
Import Js.

(** With distinct names, looking a parameter up does not depend on the
    order of the declarations. *)
Lemma findParameter_permutation (ps ps' : list DumpVariant.JustParameter) k :
  Permutation ps ps' ->
  NoDup (map DumpVariant.name ps) ->
  DumpVariant.findParameter ps k = DumpVariant.findParameter ps' k.
Proof.
  unfold DumpVariant.findParameter.
  induction 1 as [| x l l' Hp IH | x y l | l l' l'' Hp1 IH1 Hp2 IH2];
    intros Hnd; simpl.
  - reflexivity.
  - inversion Hnd; subst.
    destruct (String.eqb (DumpVariant.name x) k); [reflexivity | now apply IH].
  - destruct (String.eqb_spec (DumpVariant.name y) k) as [Hy | _];
      destruct (String.eqb_spec (DumpVariant.name x) k) as [Hx | _];
      try reflexivity.
    exfalso. simpl in Hnd. inversion Hnd as [| ? ? Hin _]; subst.
    apply Hin. left. congruence.
  - rewrite IH1 by exact Hnd. apply IH2.
    apply (Permutation_NoDup (Permutation_map DumpVariant.name Hp1) Hnd).
Qed.

(** The marshaller never puts the arguments in the order of the
    declarations: with distinct parameter names, declaring the parameters
    in another order changes nothing to what a map marshals to, which
    follows the map's own order only. *)
Theorem marshalling_ignores_declaration_order
  (ps ps' : list DumpVariant.JustParameter) (params : option entries) :
  Permutation ps ps' ->
  NoDup (map DumpVariant.name ps) ->
  DumpVariant.processParameters params ps =
  DumpVariant.processParameters params ps'.
Proof.
  intros Hp Hnd. destruct params as [o |]; [| reflexivity].
  unfold DumpVariant.processParameters. generalize (@nil value) as args.
  induction o as [| [k v] o IH]; intros args; [reflexivity |].
  cbn [fold_left]. rewrite IH. f_equal.
  unfold DumpVariant.pushEntry.
  now rewrite (findParameter_permutation ps ps' k Hp Hnd).
Qed.

(** The recipe [test_multiple_args first second] called with [second]
    before [first]: the arguments come out in the order of the call, under
    either order of declaration. *)
Lemma marshalling_ignores_order_witness :
  let first := DumpVariant.mkParameter "first" DumpVariant.singular
                 DumpVariant.DefaultNull false in
  let second := DumpVariant.mkParameter "second" DumpVariant.singular
                  (DumpVariant.DefaultString "second_default") false in
  let o := Some [("second", VString "2"); ("first", VString "1")] in
  DumpVariant.processParameters o [first; second] =
    [VString "2"; VString "1"] /\
  DumpVariant.processParameters o [first; second] =
  DumpVariant.processParameters o [second; first].
Proof.
  intros first second o. split; [reflexivity |].
  refine (marshalling_ignores_declaration_order
            [first; second] [second; first] o (perm_swap _ _ _) _).
  repeat constructor; simpl; intuition discriminate.
Defined.

(** From the call to the spawn: when the object schema of a recipe with
    distinctly named parameters accepts the caller's map (distinct keys, no
    [undefined] value), the tool closure spawns [bash] once, with the fixed
    head, then the server's own arguments, then the values of the declared
    keys flattened in the map's order, and returns what that spawn gives. *)
Theorem accepted_call_spawns_flattened_values
  (host : Host) (PROJECT : string) (Deno_args : list string)
  (recipeName : string) (recipe : DumpVariant.JustRecipe) (o : entries) :
  NoDup (map DumpVariant.name (DumpVariant.parameters recipe)) ->
  NoDup (map fst o) ->
  (forall k, ~ In (k, VUndefined) o) ->
  Zod.object_accepts (DumpVariant.parametersSchema recipeName recipe) o = true ->
  DumpVariant.execute host PROJECT Deno_args recipeName recipe (Some o) =
  match host (mkCommand "bash"
                (Spec.shellHead recipeName ++ map VString Deno_args ++
                 Spec.flattened
                   (filter (Spec.declaredKey (DumpVariant.parameters recipe))
                           o))
                PROJECT) with
  | inl e => inl (Spec.toolError recipeName e)
  | inr child => inr (Spec.toolResult child)
  end.
Proof.
  intros _ Hnd Hdef Hacc. rewrite dump_execute_outcome.
  now rewrite (accepted_map_marshalled recipeName recipe o Hnd Hdef Hacc).
Qed.

(** The call [test {test_files: [a.test.ts, b.test.ts]}] on a host that
    echoes the number of arguments it was given. *)
Lemma accepted_call_witness :
  let host : Host :=
    fun cmd => inr (mkChild [(stdout, string_of_number
                                        (Z.of_nat (List.length (args cmd))))]
                            0) in
  DumpVariant.execute host "/project" ["--justfile"; "Justfile"] "test"
    Fixtures.test
    (Some [("test_files", VArray [VString "a.test.ts"; VString "b.test.ts"])])
  = inr ("8" ^^ lf ^^ "Process exited with code 0").
Proof.
  intros host.
  refine (eq_trans
            (accepted_call_spawns_flattened_values host "/project"
               ["--justfile"; "Justfile"] "test" Fixtures.test
               [("test_files",
                 VArray [VString "a.test.ts"; VString "b.test.ts"])]
               _ _ _ eq_refl) eq_refl).
  - repeat constructor; simpl; intuition discriminate.
  - repeat constructor; simpl; intuition discriminate.
  - intros k H. simpl in H. intuition discriminate.
Defined.

(** Every tool the structured-dump variant serves has a description that
    is not empty. *)
Theorem served_tools_are_described
  (host : Host) (PROJECT : string) (Deno_args : list string) (debug : bool)
  (allowed : option (list string)) (recipes : DumpVariant.Recipes)
  (t : DumpVariant.Tool) :
  In t (DumpVariant.registerTools host PROJECT Deno_args debug false allowed
          recipes) ->
  DumpVariant.tool_description t <> EmptyString.
Proof.
  unfold DumpVariant.registerTools. intros H.
  apply dump_registered in H as [H | (n & r & _ & _ & ->)].
  - destruct debug; [destruct H as [<- | []]; discriminate | destruct H].
  - cbn [DumpVariant.recipeTool DumpVariant.tool_description].
    unfold DumpVariant.toolDescription.
    destruct (DumpVariant.doc r) as [[| c d] |]; simpl; discriminate.
Qed.

Lemma served_tools_witness :
  DumpVariant.tool_description
    (DumpVariant.recipeTool (fun _ => inr (mkChild [] 0)) "/project" []
       "lint" Fixtures.undocumented) <> EmptyString.
Proof.
  refine (served_tools_are_described (fun _ => inr (mkChild [] 0)) "/project"
            [] false None [("lint", Fixtures.undocumented)] _ _).
  left. reflexivity.
Defined.

End CallToSpawn.

(* ===================================================================== *)
(** ** The description of a listed task, read off its line *)
(* ===================================================================== *)

Section ListedDescription.
Import Js ListVariant.






End ListedDescription.

Section DescriptionClaim.
Import Js.



End DescriptionClaim.

(* ===================================================================== *)
(** ** Unknown keys, from the request to the marshaller *)
(* ===================================================================== *)

Section UnknownKeys.
Import Js.









End UnknownKeys.
